(** * svelte-rc-knob: the angle/value interaction core

    A shallow embedding of the knob's interaction arithmetic
    ([src/lib/utils.ts], [src/lib/utils/math.ts], [src/lib/utils/angles.ts]),
    of the interaction controller ([createKnobState], the store that imports
    [../utils.js]), of the DOM event handlers, and of the path and tick
    computations of the components.

    Numbers.  A JavaScript [number] is a binary64 floating-point number.
    Two models of it are used.

    - The exact model: a [number] is a rational [Q].  It serves for what
      the control flow, the comparisons and the selection of a value
      decide: which branch runs, which callbacks are called and in which
      order, what a clamp keeps between its bounds.  It does not round, and
      a division by zero is [0] in [Q] where JavaScript gives [NaN] or an
      infinity; a statement over [Q] that rests on a division therefore
      assumes the divisor is not zero.  The one place of the exact model
      where a non-finite number matters (a division by a zero segment count
      in the spiral generator) has an explicit [jsnum] type with [NaN] and
      the two infinities.

    - The binary64 model: module [Binary64] restates the utilities and the
      start of an interaction over the primitive binary64 numbers, whose
      operations round as JavaScript's do.  It serves where rounding
      decides the outcome, as in the snapping of a percentage.

    A nullable number ([number | null]) is an [option]; where the source
    does arithmetic on a possibly-null value (behind a [!] or an
    [as number] cast) the model applies [toNum], the ToNumber coercion of
    JavaScript, which sends [null] to [0]. *)

From Stdlib Require Import QArith Qround Qabs Qminmax ZArith List Bool Lia Lqa.
From Stdlib Require String.
From Stdlib Require Floats.
Import ListNotations.
Open Scope Q_scope.

(** ** JavaScript numeric primitives over [Q] *)

Module JS.

(** [a < b] as a boolean. *)
Definition ltb (a b : Q) : bool := negb (Qle_bool b a).
(** [a > b], [a <= b], [a >= b]. *)
Definition gtb (a b : Q) : bool := ltb b a.
Definition leb (a b : Q) : bool := Qle_bool a b.
Definition geb (a b : Q) : bool := Qle_bool b a.

(** ToNumber on a nullable number: [null] coerces to [0]. *)
Definition toNum (x : option Q) : Q :=
  match x with Some q => q | None => 0 end.

(** Rounding towards zero. *)
Definition trunc (x : Q) : Z :=
  if Qle_bool 0 x then Qfloor x else Qceiling x.

(** The remainder operator [a % b]: the result has the sign of the
    dividend, [a - b * trunc (a / b)].  The divisors in the sources are 360,
    1 and the step size of the snapping. *)
Definition rem (a b : Q) : Q := a - b * inject_Z (trunc (a / b)).

Definition Math_max (a b : Q) : Q := if Qle_bool a b then b else a.
Definition Math_min (a b : Q) : Q := if Qle_bool a b then a else b.
Definition Math_abs (a : Q) : Q := if Qle_bool 0 a then a else - a.
Definition Math_sign (a : Q) : Q :=
  if ltb 0 a then 1 else if ltb a 0 then -1 else 0.
(** [Math.round] rounds half up: [floor (x + 0.5)]. *)
Definition Math_round (a : Q) : Q := inject_Z (Qfloor (a + 0.5)).
Definition Math_ceil (a : Q) : Z := Qceiling a.

(** Truthiness of an optional number: [undefined] and [0] are falsy. *)
Definition truthy (x : option Q) : bool :=
  match x with Some q => negb (Qeq_bool q 0) | None => false end.

End JS.

(** ** [src/lib/utils.ts]: the utilities the controller imports *)

Module Utils.
Import JS.

Record Position := mkPosition {
  updated : bool;
  mouseAngle : Q;
  percentage : option Q
}.

Definition clamp (min max value : Q) : Q :=
  Math_max min (Math_min max value).

(** In the exact model the quotient by an [angleRange] of 0 is 0; the
    source yields [NaN] or an infinity there (see [Binary64.Utils]). *)
Definition calculatePercentageFromMouseAngle
    (mouseAngle angleOffset angleRange : Q) : Q :=
  let rangle :=
    rem (mouseAngle - (angleOffset + angleRange * 0.5) + 900) 360 - 180 in
  let percentage := 0.5 + rangle / angleRange in
  clamp 0 1 percentage.

(** The normalised angle step of a subsequent update. *)
Definition validDeltaAngle (mouseAngle previousMouseAngle : Q) : Q :=
  let deltaAngle := rem (mouseAngle - previousMouseAngle) 360 in
  if gtb deltaAngle 180 then - (360 - deltaAngle)
  else if ltb deltaAngle (-180) then 360 + deltaAngle
  else deltaAngle.

Definition calculatePositionFromMouseAngle
    (mouseAngle : Q) (multiRotation : bool) (angleOffset angleRange : Q)
    (percentage previousPercentage previousMouseAngle : option Q)
    : Position :=
  match previousMouseAngle with
  | Some previousMouseAngle =>
      let validDeltaAngle := validDeltaAngle mouseAngle previousMouseAngle in
      if geb validDeltaAngle 120 || leb validDeltaAngle (-120) then
        {| updated := false;
           mouseAngle := previousMouseAngle;
           percentage := previousPercentage |}
      else
        let newPercentage :=
          toNum previousPercentage + validDeltaAngle / angleRange in
        if negb multiRotation
           && (ltb newPercentage 0 || gtb newPercentage 1) then
          let clampedPercentage := if ltb newPercentage 0 then 0 else 1 in
          let theoricalMouseAngle :=
            if ltb newPercentage 0 then angleOffset
            else rem (angleOffset + angleRange + 720) 360 in
          {| updated := true;
             mouseAngle := theoricalMouseAngle;
             percentage := Some clampedPercentage |}
        else
          {| updated := true;
             mouseAngle := mouseAngle;
             percentage := Some newPercentage |}
  | None =>
      if multiRotation then
        let rawPercentage :=
          calculatePercentageFromMouseAngle mouseAngle angleOffset angleRange in
        let deltaPercent :=
          rem (rawPercentage + 1 - rem (toNum percentage) 1) 1 in
        let validDeltaPercent :=
          if gtb deltaPercent 0.5 then deltaPercent - 1 else deltaPercent in
        {| updated := true;
           mouseAngle := mouseAngle;
           percentage := Some (toNum percentage + validDeltaPercent) |}
      else
        let newPercentage :=
          calculatePercentageFromMouseAngle mouseAngle angleOffset angleRange in
        {| updated := true;
           mouseAngle := mouseAngle;
           percentage := Some newPercentage |}
  end.

(** The nearest multiple of the step, in exact arithmetic; what the
    rounding of binary64 makes of the same formula is
    [Binary64.Utils.snapPercentage]. *)
Definition snapPercentage (percentage nbIntervals : Q) : Q :=
  if Qeq_bool percentage 0 then 0
  else
    let sign := Math_sign percentage in
    let p := Math_abs percentage in
    let stepSize := 1 / nbIntervals in
    let extra := rem (p + stepSize * 0.5) stepSize in
    sign * (p - stepSize * 0.5) + sign * (stepSize - extra).

Definition snapPosition (position : Position) (angleOffset angleRange : Q)
    (steps : option Q) : Position :=
  if negb (updated position) || negb (truthy steps) then position
  else
    let percentage :=
      snapPercentage (toNum (percentage position)) (toNum steps) in
    let mouseAngle := rem (angleOffset + angleRange * percentage) 360 in
    {| updated := updated position;
       percentage := Some percentage;
       mouseAngle := if ltb mouseAngle 0 then mouseAngle + 360 else mouseAngle |}.

Definition getValueFromPercentage (min max percentage : Q) : Q :=
  min + (max - min) * percentage.

Definition getPercentageFromValue (min max value : Q) : Q :=
  (value - min) / (max - min).

End Utils.

(** ** [src/lib/utils/math.ts] *)

Module MathUtils.
Import JS.

Definition clamp (min max value : Q) : Q :=
  Math_max min (Math_min max value).

Definition snapPercentage (percentage nbIntervals : Q) : Q :=
  Math_round (percentage * nbIntervals) / nbIntervals.

Definition getValueFromPercentage (min max percentage : Q) : Q :=
  min + (max - min) * percentage.

Definition getPercentageFromValue (min max value : Q) : Q :=
  (value - min) / (max - min).

End MathUtils.

(** ** [src/lib/utils/angles.ts]: the resolver exported by [index.ts] *)

Module Angles.
Import JS.

Record Position := mkPosition {
  updated : bool;
  mouseAngle : Q;
  percentage : Q
}.

Definition calculatePercentageFromMouseAngle
    (mouseAngle angleOffset angleRange : Q) : Q :=
  let rangle :=
    rem (mouseAngle - (angleOffset + angleRange * 0.5) + 900) 360 - 180 in
  let percentage := 0.5 + rangle / angleRange in
  MathUtils.clamp 0 1 percentage.

Definition calculatePositionFromMouseAngle
    (mouseAngle : Q) (multiRotation : bool) (angleOffset angleRange : Q)
    (percentage previousPercentage previousMouseAngle : option Q)
    : Position :=
  match previousMouseAngle, previousPercentage with
  | Some previousMouseAngle, Some previousPercentage =>
      if negb multiRotation then
        let newPercentage :=
          calculatePercentageFromMouseAngle mouseAngle angleOffset angleRange in
        {| updated := true;
           mouseAngle := mouseAngle;
           percentage := newPercentage |}
      else
        let mouseDiff := mouseAngle - previousMouseAngle in
        if gtb (Math_abs mouseDiff) 180 then
          {| updated := false;
             mouseAngle := previousMouseAngle;
             percentage := previousPercentage |}
        else
          let newPercentage :=
            MathUtils.clamp 0 1 (toNum percentage + mouseDiff / angleRange) in
          {| updated := true;
             mouseAngle := mouseAngle;
             percentage := newPercentage |}
  | _, _ =>
      let newPercentage :=
        calculatePercentageFromMouseAngle mouseAngle angleOffset angleRange in
      {| updated := true;
         mouseAngle := mouseAngle;
         percentage := newPercentage |}
  end.

Definition snapPosition (position : Position) (steps : option Q) : Position :=
  if negb (truthy steps) || negb (updated position) then position
  else
    let nbIntervals := toNum steps - 1 in
    let snappedPercentage :=
      Math_round (percentage position * nbIntervals) / nbIntervals in
    {| updated := updated position;
       mouseAngle := mouseAngle position;
       percentage := snappedPercentage |}.

End Angles.

(** ** The interaction controller: [createKnobState] and its handlers

    The store imports its helpers from [../utils.js], so the handlers run
    the [Utils] resolver and snapping.  A handler is a function from the
    state to the new state and the callbacks it invoked, in call order. *)

Module Knob.
Import JS.

Record KnobState := mkKnobState {
  isActive : bool;
  min : Q;
  max : Q;
  value : option Q;
  percentage : option Q;
  mouseAngle : option Q;
  startPercentage : option Q;
  startValue : option Q;
  multiRotation : bool;
  angleOffset : Q;
  angleRange : Q;
  tracking : bool;
  size : Q;
  steps : option Q
}.

Inductive Callback : Type :=
| onStart
| onEnd
| onChange (value : Q)
| onInteractiveChange (value : Q).

(** The initial [internalState] of [createKnobState]. *)
Definition createKnobState (min max : Q) (multiRotation : bool)
    (initialValue : option Q) (angleOffset angleRange size : Q)
    (steps : option Q) (tracking : bool) : KnobState :=
  {| isActive := false;
     min := min;
     max := max;
     multiRotation := multiRotation;
     angleOffset := angleOffset;
     angleRange := angleRange;
     mouseAngle := None;
     percentage :=
       Some (if truthy initialValue
             then (toNum initialValue - min) / (max - min) else 0);
     value := Some (if truthy initialValue then toNum initialValue else 0);
     tracking := tracking;
     size := size;
     steps := steps;
     startPercentage := None;
     startValue := None |}.

(** Assignments to single fields of the reactive state. *)
Definition set_isActive (b : bool) (s : KnobState) : KnobState :=
  mkKnobState b (min s) (max s) (value s) (percentage s) (mouseAngle s)
    (startPercentage s) (startValue s) (multiRotation s) (angleOffset s)
    (angleRange s) (tracking s) (size s) (steps s).
Definition set_value (v : option Q) (s : KnobState) : KnobState :=
  mkKnobState (isActive s) (min s) (max s) v (percentage s) (mouseAngle s)
    (startPercentage s) (startValue s) (multiRotation s) (angleOffset s)
    (angleRange s) (tracking s) (size s) (steps s).
Definition set_percentage (p : option Q) (s : KnobState) : KnobState :=
  mkKnobState (isActive s) (min s) (max s) (value s) p (mouseAngle s)
    (startPercentage s) (startValue s) (multiRotation s) (angleOffset s)
    (angleRange s) (tracking s) (size s) (steps s).
Definition set_mouseAngle (a : option Q) (s : KnobState) : KnobState :=
  mkKnobState (isActive s) (min s) (max s) (value s) (percentage s) a
    (startPercentage s) (startValue s) (multiRotation s) (angleOffset s)
    (angleRange s) (tracking s) (size s) (steps s).
Definition set_startPercentage (p : option Q) (s : KnobState) : KnobState :=
  mkKnobState (isActive s) (min s) (max s) (value s) (percentage s)
    (mouseAngle s) p (startValue s) (multiRotation s) (angleOffset s)
    (angleRange s) (tracking s) (size s) (steps s).
Definition set_startValue (v : option Q) (s : KnobState) : KnobState :=
  mkKnobState (isActive s) (min s) (max s) (value s) (percentage s)
    (mouseAngle s) (startPercentage s) v (multiRotation s) (angleOffset s)
    (angleRange s) (tracking s) (size s) (steps s).

Definition handleStart (mouseAngle : Q) (s : KnobState)
    : KnobState * list Callback :=
  let position :=
    Utils.calculatePositionFromMouseAngle mouseAngle (multiRotation s)
      (angleOffset s) (angleRange s) (percentage s) None None in
  let position2 :=
    Utils.snapPosition position (angleOffset s) (angleRange s) (steps s) in
  let value :=
    Utils.getValueFromPercentage (min s) (max s)
      (toNum (Utils.percentage position2)) in
  let s := set_isActive true s in
  let s := set_mouseAngle (Some mouseAngle) s in
  let s := set_percentage (Utils.percentage position2) s in
  let s := set_startPercentage (percentage s) s in
  let s := set_startValue (Knob.value s) s in
  let s := set_value (Some value) s in
  (s, [onStart; onInteractiveChange value]
        ++ (if tracking s then [onChange value] else [])).

Definition handleMove (mouseAngle : Q) (s : KnobState)
    : KnobState * list Callback :=
  if negb (isActive s) then (s, [])
  else
    let position :=
      Utils.calculatePositionFromMouseAngle mouseAngle (multiRotation s)
        (angleOffset s) (angleRange s) (percentage s)
        (percentage s) (Knob.mouseAngle s) in
    let position2 :=
      Utils.snapPosition position (angleOffset s) (angleRange s) (steps s) in
    let value :=
      Utils.getValueFromPercentage (min s) (max s)
        (toNum (Utils.percentage position2)) in
    let s := set_mouseAngle (Some mouseAngle) s in
    let s := set_percentage (Utils.percentage position2) s in
    let s := set_value (Some value) s in
    (s, [onInteractiveChange value]
          ++ (if tracking s then [onChange value] else [])).

Definition handleEnd (s : KnobState) : KnobState * list Callback :=
  let committed :=
    match value s with
    | Some v => if negb (tracking s) then [onChange v] else []
    | None => []
    end in
  let s := set_isActive false s in
  let s := set_startPercentage None s in
  let s := set_startValue None s in
  (s, committed ++ [onEnd]).

Definition handleCancel (s : KnobState) : KnobState * list Callback :=
  let '(s, reverted) :=
    match startValue s with
    | Some sv =>
        let s := set_value (startValue s) s in
        let s := set_percentage (startPercentage s) s in
        (s, if tracking s then [onChange sv] else [])
    | None => (s, [])
    end in
  let s := set_isActive false s in
  let s := set_startPercentage None s in
  let s := set_startValue None s in
  (s, reverted ++ [onEnd]).

Definition handleStep (direction : Q) (s : KnobState)
    : KnobState * list Callback :=
  match value s with
  | None => (s, [])
  | Some v =>
      let value := Utils.clamp (min s) (max s) (v + direction) in
      let percentage := Utils.getPercentageFromValue (min s) (max s) value in
      let s := set_value (Some value) s in
      let s := set_percentage (Some percentage) s in
      (s, [onInteractiveChange value; onChange value])
  end.

(** The events the controller receives ([finish] is the end event), and
    the run of a sequence of them: the callbacks of the whole run are
    collected in order. *)
Inductive Event : Type :=
| start (mouseAngle : Q)
| move (mouseAngle : Q)
| finish
| cancel
| step (direction : Q).

Definition handle (e : Event) (s : KnobState) : KnobState * list Callback :=
  match e with
  | start a => handleStart a s
  | move a => handleMove a s
  | finish => handleEnd s
  | cancel => handleCancel s
  | step d => handleStep d s
  end.

Fixpoint run (es : list Event) (s : KnobState) : KnobState * list Callback :=
  match es with
  | [] => (s, [])
  | e :: es =>
      let '(s1, cs1) := handle e s in
      let '(s2, cs2) := run es s1 in
      (s2, cs1 ++ cs2)
  end.

End Knob.

(** ** The spiral path generator of [Spiral.svelte]

    The loop of [calcPath] divides by the segment count, so its numbers are
    modelled with the non-finite values of JavaScript.  Signed zeros are not
    distinguished.  [Math.cos], [Math.sin] and [Math.PI] are parameters of
    the section.  The path string is modelled by the sequence of its command
    letters and numbers, in the order the template literals print them. *)

Module Spiral.

Inductive jsnum : Type :=
| Fin (q : Q)
| PInf
| NInf
| NaN.

Definition isNaN (x : jsnum) : bool :=
  match x with NaN => true | _ => false end.

Definition jneg (a : jsnum) : jsnum :=
  match a with
  | Fin x => Fin (- x)
  | PInf => NInf
  | NInf => PInf
  | NaN => NaN
  end.

Definition jadd (a b : jsnum) : jsnum :=
  match a, b with
  | NaN, _ | _, NaN => NaN
  | Fin x, Fin y => Fin (x + y)
  | PInf, NInf | NInf, PInf => NaN
  | PInf, _ | _, PInf => PInf
  | NInf, _ | _, NInf => NInf
  end.

Definition jsub (a b : jsnum) : jsnum := jadd a (jneg b).

(** An infinity of the sign of [x], or [NaN] when [x] is zero. *)
Definition scaleInf (positive : bool) (x : Q) : jsnum :=
  if Qeq_bool x 0 then NaN
  else if Bool.eqb positive (JS.ltb 0 x) then PInf else NInf.

Definition jmul (a b : jsnum) : jsnum :=
  match a, b with
  | NaN, _ | _, NaN => NaN
  | Fin x, Fin y => Fin (x * y)
  | Fin x, PInf | PInf, Fin x => scaleInf true x
  | Fin x, NInf | NInf, Fin x => scaleInf false x
  | PInf, PInf | NInf, NInf => PInf
  | PInf, NInf | NInf, PInf => NInf
  end.

Definition jdiv (a b : jsnum) : jsnum :=
  match a, b with
  | NaN, _ | _, NaN => NaN
  | Fin x, Fin y =>
      if Qeq_bool y 0 then scaleInf true x else Fin (x / y)
  | Fin _, _ => Fin 0
  | PInf, Fin y => if JS.ltb y 0 then NInf else PInf
  | NInf, Fin y => if JS.ltb y 0 then PInf else NInf
  | _, _ => NaN
  end.

Record Point := mkPoint { x : jsnum; y : jsnum }.

(** The pieces of an SVG path string. *)
Inductive Token : Type :=
| Cmd (letter : nat)
| Num (n : jsnum).

(** The command letters of the path, by their ASCII codes. *)
Definition M : Token := Cmd 77.
Definition A : Token := Cmd 65.
Definition L : Token := Cmd 76.
Definition z : Token := Cmd 122.

(** [ordered v1 p1 v2 p2]: the two pairs, the one with the smaller first
    component first. *)
Definition ordered (v1 p1 v2 p2 : Q) : Q * Q * Q * Q :=
  if JS.leb v1 v2 then (v1, p1, v2, p2) else (v2, p2, v1, p1).

Section Trig.
Variable PI : Q.
Variables cos sin : Q -> Q.

Definition Math_cos (a : jsnum) : jsnum :=
  match a with Fin q => Fin (cos q) | _ => NaN end.
Definition Math_sin (a : jsnum) : jsnum :=
  match a with Fin q => Fin (sin q) | _ => NaN end.

Definition pointOnCircle (center : Q) (radius angle : jsnum) : Point :=
  {| x := jadd (Fin center) (jmul radius (Math_cos angle));
     y := jadd (Fin center) (jmul radius (Math_sin angle)) |}.

Definition degTorad (deg : Q) : Q := (PI * deg) / 180.

(** The string variables of the loop. *)
Record Pieces := mkPieces {
  forth : list Token;
  start : list Token;
  back : list Token;
  link : list Token
}.

(** The segment count of [calcPath]. *)
Definition segments (percentageMin percentageMax : Q) : Z :=
  (JS.Math_ceil (percentageMax - percentageMin) * 4)%Z.

(** One iteration of the loop body, at index [i]. *)
Definition body (nb : Z) (center arcWidth : Q)
    (outerRadiusMin outerRadiusMax startAngleRad endAngleRad : Q)
    (acc : Pieces) (i : Z) : Pieces :=
  let coef := jdiv (Fin (inject_Z i)) (Fin (inject_Z nb)) in
  let outerRadius :=
    jadd (Fin outerRadiusMin)
         (jmul (Fin (outerRadiusMax - outerRadiusMin)) coef) in
  let innerRadius := jsub outerRadius (Fin arcWidth) in
  let angleRad :=
    jadd (Fin startAngleRad)
         (jmul (Fin (endAngleRad - startAngleRad)) coef) in
  let angleDeg :=
    jmul (jdiv (jmul angleRad (Fin 180)) (Fin PI)) coef in
  let po := pointOnCircle center outerRadius angleRad in
  let pi := pointOnCircle center innerRadius angleRad in
  let acc :=
    if (i =? 0)%Z then
      mkPieces (forth acc) [Num (x po); Num (y po)] (back acc) (link acc)
    else
      mkPieces
        (forth acc ++
           [Num outerRadius; Num outerRadius; Num angleDeg;
            Num (Fin 0); Num (Fin 1); Num (x po); Num (y po)])
        (start acc) (back acc) (link acc) in
  if (i =? nb)%Z then
    mkPieces (forth acc) (start acc) (back acc) [Num (x pi); Num (y pi)]
  else
    mkPieces (forth acc) (start acc)
      ([Num innerRadius; Num innerRadius; Num angleDeg;
        Num (Fin 0); Num (Fin 0); Num (x pi); Num (y pi)] ++ back acc)
      (link acc).

(** The indices [0 .. nb] the loop visits; none when [nb] is negative. *)
Definition indices (nb : Z) : list Z :=
  if (nb <? 0)%Z then []
  else List.map Z.of_nat (List.seq 0 (S (Z.to_nat nb))).

Definition calcPath (percentageFrom percentageTo : option Q)
    (angleOffset angleRange arcWidth outerRadiusFrom outerRadiusTo
       center : Q) : list Token :=
  match percentageFrom, percentageTo with
  | Some percentageFrom, Some percentageTo =>
      let '(percentageMin, outerRadiusMin, percentageMax, outerRadiusMax) :=
        ordered percentageFrom outerRadiusFrom percentageTo outerRadiusTo in
      let angle := angleRange * (percentageMax - percentageMin) in
      let startAngle := angleOffset - 90 + angleRange * percentageMin in
      let startAngleRad := degTorad startAngle in
      let endAngleRad := degTorad (startAngle + angle) in
      let nb := segments percentageMin percentageMax in
      let pieces :=
        List.fold_left
          (body nb center arcWidth outerRadiusMin outerRadiusMax
                startAngleRad endAngleRad)
          (indices nb) (mkPieces [] [] [] []) in
      [M] ++ start pieces ++ [A] ++ forth pieces
          ++ [L] ++ link pieces ++ [A] ++ back pieces ++ [z]
  | _, _ => []
  end.

End Trig.

End Spiral.

(** ** The DOM event handlers: [createKnobEventHandlers]

    The handlers of [actions/events.ts] decide whether an event reaches the
    controller and with which argument.  The model keeps that decision: a
    handler maps the controller state to the new state and the callbacks
    invoked.  Listener registration, pointer capture and [preventDefault]
    are effects on the page and are not modelled.  The geometry of
    [getMousePosition] ([Math.atan2] and [Math.sqrt] on binary64 numbers) is
    a parameter of the section: the handlers only pass its result on.  The
    fields of the hook's event and result carry the prefix [h_]. *)

(** The names of the arrow keys, as [KeyboardEvent.key] gives them. *)
Module Keys.
Import String.

Definition ArrowLeft : string := "ArrowLeft"%string.
Definition ArrowUp : string := "ArrowUp"%string.
Definition ArrowRight : string := "ArrowRight"%string.
Definition ArrowDown : string := "ArrowDown"%string.

End Keys.

Module Events.
Import JS.

Record MousePosition := mkMousePosition {
  mouseX : Q;
  mouseY : Q;
  mouseRadius : Q;
  mouseAngle : Q
}.

Definition DIRECTIONS : list (String.string * Q) :=
  [(Keys.ArrowLeft, -1); (Keys.ArrowUp, 1);
   (Keys.ArrowRight, 1); (Keys.ArrowDown, -1)].

(** The entries of a record of numbers: the first entry of that key. *)
Fixpoint lookup (key : String.string) (record : list (String.string * Q))
    : option Q :=
  match record with
  | [] => None
  | (k, v) :: record => if String.eqb key k then Some v else lookup key record
  end.

(** What a property read [record[key]] on an object literal returns: an
    entry of the record, a member that every object inherits from
    [Object.prototype] (an object or a function, such as [constructor] or
    [toString]), or [undefined]. *)
Inductive Property : Type :=
| Own (v : Q)
| Inherited
| Missing.

(** The element the listeners are attached to. *)
Record Element := mkElement {
  rectX : Q;
  rectY : Q;
  clientWidth : Q;
  clientHeight : Q
}.

(** A pointer or mouse event; [pointerIsMouse] is [pointerType === 'mouse']
    (false for a plain mouse event, which has no pointer type). *)
Record PointerEvent := mkPointerEvent {
  pointerIsMouse : bool;
  button : Z;
  ctrlKey : bool;
  altKey : bool;
  metaKey : bool;
  shiftKey : bool;
  clientX : Q;
  clientY : Q
}.

Record InteractiveHookEvent := mkInteractiveHookEvent {
  h_ctrlKey : bool;
  h_altKey : bool;
  h_metaKey : bool;
  h_shiftKey : bool;
  h_mouseX : Q;
  h_mouseY : Q;
  h_mouseRadius : Q;
  h_mouseAngle : Q
}.

Record InteractiveHookResult := mkInteractiveHookResult {
  h_readOnly : option bool;
  h_steps : option Q
}.

Record Config := mkConfig {
  readOnly : bool;
  useMouseWheel : bool;
  interactiveHook : option (InteractiveHookEvent -> InteractiveHookResult)
}.

(** Truthiness of an optional boolean. *)
Definition flag (b : option bool) : bool :=
  match b with Some true => true | _ => false end.

Section Native.
(** The names of the members of [Object.prototype]. *)
Variable inherited : String.string -> bool.
(** [getMousePosition]: the position of the event relative to the centre
    of the element, in cartesian and polar coordinates. *)
Variable getMousePosition : Element -> PointerEvent -> MousePosition.

(** [record[key]]: own entries first, then the inherited members. *)
Definition property (key : String.string)
    (record : list (String.string * Q)) : Property :=
  match lookup key record with
  | Some v => Own v
  | None => if inherited key then Inherited else Missing
  end.

Definition getInteractiveConfig (config : Config)
    (mousePosition : MousePosition) (e : PointerEvent)
    : InteractiveHookResult :=
  match interactiveHook config with
  | None => {| h_readOnly := None; h_steps := None |}
  | Some hook =>
      hook {| h_ctrlKey := ctrlKey e;
              h_altKey := altKey e;
              h_metaKey := metaKey e;
              h_shiftKey := shiftKey e;
              h_mouseX := mouseX mousePosition;
              h_mouseY := mouseY mousePosition;
              h_mouseRadius := mouseRadius mousePosition;
              h_mouseAngle := mouseAngle mousePosition |}
  end.

(** An inherited member is truthy and is no number: on a knob that is not
    read-only it reaches [handleStep] as the direction, and the value that
    results is not a number of this model; the handler then has no result
    here. *)
Definition handleKeyDown (config : Config) (key : String.string)
    (s : Knob.KnobState) : option (Knob.KnobState * list Knob.Callback) :=
  match property key DIRECTIONS with
  | Missing => Some (s, [])
  | Own direction =>
      if Qeq_bool direction 0 then Some (s, [])
      else if readOnly config then Some (s, [])
      else Some (Knob.handleStep direction s)
  | Inherited =>
      if readOnly config then Some (s, []) else None
  end.

Definition handleWheel (config : Config) (deltaX deltaY : Q)
    (s : Knob.KnobState) : Knob.KnobState * list Knob.Callback :=
  if negb (useMouseWheel config) then (s, [])
  else
    let direction :=
      if ltb deltaX 0 || gtb deltaY 0 then 1
      else if gtb deltaX 0 || ltb deltaY 0 then -1
      else 0 in
    if Qeq_bool direction 0 then (s, [])
    else Knob.handleStep direction s.

Definition handleStart (config : Config) (elem : Element) (e : PointerEvent)
    (s : Knob.KnobState) : Knob.KnobState * list Knob.Callback :=
  if pointerIsMouse e && negb (button e =? 0)%Z then (s, [])
  else if readOnly config then (s, [])
  else
    let mousePosition := getMousePosition elem e in
    let userConfig := getInteractiveConfig config mousePosition e in
    if flag (h_readOnly userConfig) then (s, [])
    else Knob.handleStart (mouseAngle mousePosition) s.

Definition handleMove (config : Config) (elem : Element) (e : PointerEvent)
    (s : Knob.KnobState) : Knob.KnobState * list Knob.Callback :=
  if readOnly config then (s, [])
  else
    let mousePosition := getMousePosition elem e in
    let userConfig := getInteractiveConfig config mousePosition e in
    if flag (h_readOnly userConfig) then (s, [])
    else Knob.handleMove (mouseAngle mousePosition) s.

Definition handleEnd (s : Knob.KnobState)
    : Knob.KnobState * list Knob.Callback :=
  Knob.handleEnd s.

Definition handleCancel (s : Knob.KnobState)
    : Knob.KnobState * list Knob.Callback :=
  Knob.handleCancel s.

Definition handleContextMenu (s : Knob.KnobState)
    : Knob.KnobState * list Knob.Callback :=
  Knob.handleCancel s.

End Native.

End Events.

(** ** The arc path generator of [Range.svelte]

    The path string is modelled by its command letters and numbers, in the
    order the template literal prints them. *)

Module Range.
Import JS.

Record Point := mkPoint { x : Q; y : Q }.

Inductive Token : Type :=
| Cmd (letter : nat)
| Num (n : Q).

Definition M : Token := Cmd 77.
Definition A : Token := Cmd 65.
Definition L : Token := Cmd 76.

Definition clampDeg (deg : Q) : Q :=
  if geb deg 360 then 359.999
  else if leb deg (-360) then -359.999
  else deg.

(** The current percentage: [propPercentage ?? contextPercentage]. *)
Definition p (propPercentage contextPercentage : option Q) : option Q :=
  match propPercentage with
  | Some q => Some q
  | None => contextPercentage
  end.

(** The range rendered from the two optional bounds and the current
    percentage [p]. *)
Definition pfrom (percentageFrom percentageTo p : option Q) : option Q :=
  match percentageFrom, percentageTo with
  | Some f, Some _ => Some f
  | Some f, None => Some f
  | None, Some _ => p
  | None, None => Some 0
  end.

Definition pto (percentageFrom percentageTo p : option Q) : option Q :=
  match percentageFrom, percentageTo with
  | Some _, Some t => Some t
  | Some _, None => p
  | None, Some t => Some t
  | None, None => p
  end.

Section Trig.
Variable PI : Q.
Variables cos sin : Q -> Q.

Definition pointOnCircle (center radius angle : Q) : Point :=
  {| x := center + radius * cos angle;
     y := center + radius * sin angle |}.

Definition degTorad (deg : Q) : Q := (PI * deg) / 180.

Definition calcPath (percentageFrom percentageTo angleOffset angleRange
    arcWidth outerRadius center : Q) : list Token :=
  let angle := angleRange * (percentageTo - percentageFrom) in
  let clampedAngle := clampDeg angle in
  let angleFrom := angleOffset - 90 + angleRange * percentageFrom in
  let innerRadius := outerRadius - arcWidth in
  let angleFromRad := degTorad angleFrom in
  let angleToRad := degTorad (angleFrom + clampedAngle) in
  let largeArcFlag := if ltb (Math_abs clampedAngle) 180 then 0 else 1 in
  let direction := if geb clampedAngle 0 then 1 else 0 in
  let p1 := pointOnCircle center outerRadius angleFromRad in
  let p2 := pointOnCircle center outerRadius angleToRad in
  let p3 := pointOnCircle center innerRadius angleToRad in
  let p4 := pointOnCircle center innerRadius angleFromRad in
  [M; Num (x p1); Num (y p1);
   A; Num outerRadius; Num outerRadius; Num 0; Num largeArcFlag;
      Num direction; Num (x p2); Num (y p2);
   L; Num (x p3); Num (y p3);
   A; Num innerRadius; Num innerRadius; Num 0; Num largeArcFlag;
      Num (1 - direction); Num (x p4); Num (y p4);
   L; Num (x p1); Num (y p1)].

(** The derived path [d] of the component: nothing when a bound is
    missing; the current percentage is the [percentage] property, or else
    the percentage of the knob state; the radius defaults to half the
    size. *)
Definition d (percentageFrom percentageTo propPercentage contextPercentage
    : option Q) (angleOffset angleRange arcWidth : Q) (radius : option Q)
    (size : Q) : option (list Token) :=
  let p := p propPercentage contextPercentage in
  match pfrom percentageFrom percentageTo p,
        pto percentageFrom percentageTo p with
  | Some pfrom, Some pto =>
      Some (calcPath pfrom pto angleOffset angleRange arcWidth
              (match radius with Some r => r | None => size / 2 end)
              (size / 2))
  | _, _ => None
  end.

End Trig.

End Range.

(** ** The endpoints of [Spiral.svelte] *)

Module SpiralProps.

(** [percentageFrom ?? (percentageTo !== null ? percentage : 0)]. *)
Definition pfrom (percentageFrom percentageTo percentage : option Q)
    : option Q :=
  match percentageFrom with
  | Some f => Some f
  | None =>
      match percentageTo with
      | Some _ => percentage
      | None => Some 0
      end
  end.

(** [percentageTo ?? percentage]. *)
Definition pto (percentageTo percentage : option Q) : option Q :=
  match percentageTo with
  | Some t => Some t
  | None => percentage
  end.

(** The guard of the template: the path is rendered when both radii and
    both resolved bounds are present.  The [percentage] is the property of
    the component, [null] by default; the knob state is not consulted. *)
Definition renders (radiusFrom radiusTo percentageFrom percentageTo
    percentage : option Q) : bool :=
  match radiusFrom, radiusTo,
        pfrom percentageFrom percentageTo percentage,
        pto percentageTo percentage with
  | Some _, Some _, Some _, Some _ => true
  | _, _, _, _ => false
  end.

End SpiralProps.

(** ** The ticks of [Scale.svelte] *)

Module Scale.
Import JS.

(** [propSteps ?? knobContext.config.steps ?? 10]. *)
Definition steps (propSteps configSteps : option Q) : Q :=
  match propSteps with
  | Some n => n
  | None => match configSteps with Some n => n | None => 10 end
  end.

Definition length (steps angleRange : Q) : Q :=
  steps + (if Qeq_bool angleRange 360 then 0 else 1).

(** The index of the active tick. *)
Definition active (length percentage : Q) : Q :=
  Math_round ((length - 1) * percentage).

End Scale.

(** ** The controlled value of [Knob.svelte] *)

Module KnobComponent.

(** The effect that copies the [value] property into the state: it runs
    when the property is not null and differs from the value of the
    state. *)
Definition syncValue (min max : Q) (value : option Q) (s : Knob.KnobState)
    : Knob.KnobState :=
  match value with
  | None => s
  | Some v =>
      if match Knob.value s with
         | Some current => negb (Qeq_bool v current)
         | None => true
         end
      then
        let s := Knob.set_value (Some v) s in
        Knob.set_percentage (Some ((v - min) / (max - min))) s
      else s
  end.

End KnobComponent.

(** ** The arithmetic over binary64

    The utilities of [utils.ts], the snapping of [utils/math.ts] and the
    start of an interaction, over the primitive binary64 numbers: [+], [-],
    [*] and [/] round to nearest, ties to even, and the comparisons are
    false on [NaN], as in JavaScript.  The functions are the ones of the
    exact model, read off the same source lines. *)

Module Binary64.
Import Floats.PrimFloat Floats.SpecFloat Floats.FloatOps.
Local Open Scope float_scope.

Module JS.

(** ToNumber on a nullable number: [null] coerces to [0]. *)
Definition toNum (x : option float) : float :=
  match x with Some q => q | None => 0 end.

(** The remainder operator [a % b].  The remainder of two finite numbers is
    a binary64 number, so the operator does not round: it is computed on
    the integer mantissas brought to the smaller of the two exponents, and
    has the sign of the dividend. *)
Definition rem (a b : float) : float :=
  match Prim2SF a, Prim2SF b with
  | S754_nan, _ | _, S754_nan => nan
  | S754_infinity _, _ => nan
  | _, S754_zero _ => nan
  | S754_zero _, _ => a
  | S754_finite _ _ _, S754_infinity _ => a
  | S754_finite sa ma ea, S754_finite _ mb eb =>
      let e := Z.min ea eb in
      let x := (Zpos ma * 2 ^ (ea - e))%Z in
      let y := (Zpos mb * 2 ^ (eb - e))%Z in
      match (x mod y)%Z with
      | Zpos r => SF2Prim (S754_finite sa r e)
      | _ => if sa then neg_zero else zero
      end
  end.

(** [Math.max] and [Math.min]: [NaN] when an argument is [NaN]; of two
    zeros, the positive one is the larger. *)
Definition Math_max (a b : float) : float :=
  if is_nan a || is_nan b then nan
  else if a <? b then b
  else if b <? a then a
  else if is_zero a then a + b
  else a.
Definition Math_min (a b : float) : float :=
  if is_nan a || is_nan b then nan
  else if a <? b then a
  else if b <? a then b
  else if is_zero a then - (- a + - b)
  else a.
Definition Math_abs (a : float) : float := abs a.
Definition Math_sign (a : float) : float :=
  if 0 <? a then 1 else if a <? 0 then -1 else a.

(** [Math.round]: the nearest integer, a half rounding up; exact, computed
    on the integer mantissa. *)
Definition Math_round (a : float) : float :=
  match Prim2SF a with
  | S754_finite s m e =>
      if (0 <=? e)%Z then a
      else
        let sm := if s then Zneg m else Zpos m in
        match ((2 * sm + 2 ^ (- e)) / 2 ^ (- e + 1))%Z with
        | Zpos r => SF2Prim (S754_finite false r 0)
        | Zneg r => SF2Prim (S754_finite true r 0)
        | Z0 => if s then neg_zero else zero
        end
  | _ => a
  end.

(** Truthiness of an optional number: [undefined], [0] and [NaN] are
    falsy. *)
Definition truthy (x : option float) : bool :=
  match x with
  | Some q => negb (is_nan q || is_zero q)
  | None => false
  end.

End JS.

(** [src/lib/utils.ts] *)
Module Utils.
Import JS.

Record Position := mkPosition {
  updated : bool;
  mouseAngle : float;
  percentage : option float
}.

Definition clamp (min max value : float) : float :=
  Math_max min (Math_min max value).

Definition calculatePercentageFromMouseAngle
    (mouseAngle angleOffset angleRange : float) : float :=
  let rangle :=
    rem (mouseAngle - (angleOffset + angleRange * 0.5) + 900) 360 - 180 in
  let percentage := 0.5 + rangle / angleRange in
  clamp 0 1 percentage.

Definition calculatePositionFromMouseAngle
    (mouseAngle : float) (multiRotation : bool)
    (angleOffset angleRange : float)
    (percentage previousPercentage previousMouseAngle : option float)
    : Position :=
  match previousMouseAngle with
  | Some previousMouseAngle =>
      let deltaAngle := rem (mouseAngle - previousMouseAngle) 360 in
      let validDeltaAngle :=
        if 180 <? deltaAngle then - (360 - deltaAngle)
        else if deltaAngle <? -180 then 360 + deltaAngle
        else deltaAngle in
      if (120 <=? validDeltaAngle) || (validDeltaAngle <=? -120) then
        {| updated := false;
           mouseAngle := previousMouseAngle;
           percentage := previousPercentage |}
      else
        let newPercentage :=
          toNum previousPercentage + validDeltaAngle / angleRange in
        if negb multiRotation
           && ((newPercentage <? 0) || (1 <? newPercentage)) then
          let clampedPercentage := if newPercentage <? 0 then 0 else 1 in
          let theoricalMouseAngle :=
            if newPercentage <? 0 then angleOffset
            else rem (angleOffset + angleRange + 720) 360 in
          {| updated := true;
             mouseAngle := theoricalMouseAngle;
             percentage := Some clampedPercentage |}
        else
          {| updated := true;
             mouseAngle := mouseAngle;
             percentage := Some newPercentage |}
  | None =>
      if multiRotation then
        let rawPercentage :=
          calculatePercentageFromMouseAngle mouseAngle angleOffset angleRange in
        let deltaPercent :=
          rem (rawPercentage + 1 - rem (toNum percentage) 1) 1 in
        let validDeltaPercent :=
          if 0.5 <? deltaPercent then deltaPercent - 1 else deltaPercent in
        {| updated := true;
           mouseAngle := mouseAngle;
           percentage := Some (toNum percentage + validDeltaPercent) |}
      else
        let newPercentage :=
          calculatePercentageFromMouseAngle mouseAngle angleOffset angleRange in
        {| updated := true;
           mouseAngle := mouseAngle;
           percentage := Some newPercentage |}
  end.

Definition snapPercentage (percentage nbIntervals : float) : float :=
  if percentage =? 0 then 0
  else
    let sign := Math_sign percentage in
    let p := Math_abs percentage in
    let stepSize := 1 / nbIntervals in
    let extra := rem (p + stepSize * 0.5) stepSize in
    sign * (p - stepSize * 0.5) + sign * (stepSize - extra).

Definition snapPosition (position : Position) (angleOffset angleRange : float)
    (steps : option float) : Position :=
  if negb (updated position) || negb (truthy steps) then position
  else
    let percentage :=
      snapPercentage (toNum (percentage position)) (toNum steps) in
    let mouseAngle := rem (angleOffset + angleRange * percentage) 360 in
    {| updated := updated position;
       percentage := Some percentage;
       mouseAngle := if mouseAngle <? 0 then mouseAngle + 360 else mouseAngle |}.

Definition getValueFromPercentage (min max percentage : float) : float :=
  min + (max - min) * percentage.

End Utils.

(** [src/lib/utils/math.ts] *)
Module MathUtils.
Import JS.

Definition snapPercentage (percentage nbIntervals : float) : float :=
  Math_round (percentage * nbIntervals) / nbIntervals.

End MathUtils.

(** The initial state of [createKnobState] and its [handleStart]. *)
Module Knob.
Import JS.

Record KnobState := mkKnobState {
  isActive : bool;
  min : float;
  max : float;
  value : option float;
  percentage : option float;
  mouseAngle : option float;
  startPercentage : option float;
  startValue : option float;
  multiRotation : bool;
  angleOffset : float;
  angleRange : float;
  tracking : bool;
  size : float;
  steps : option float
}.

Inductive Callback : Type :=
| onStart
| onEnd
| onChange (value : float)
| onInteractiveChange (value : float).

Definition createKnobState (min max : float) (multiRotation : bool)
    (initialValue : option float) (angleOffset angleRange size : float)
    (steps : option float) (tracking : bool) : KnobState :=
  {| isActive := false;
     min := min;
     max := max;
     multiRotation := multiRotation;
     angleOffset := angleOffset;
     angleRange := angleRange;
     mouseAngle := None;
     percentage :=
       Some (if truthy initialValue
             then (toNum initialValue - min) / (max - min) else 0);
     value := Some (if truthy initialValue then toNum initialValue else 0);
     tracking := tracking;
     size := size;
     steps := steps;
     startPercentage := None;
     startValue := None |}.

(** The start snapshot takes the percentage after it has been overwritten
    and the value before. *)
Definition handleStart (mouseAngle : float) (s : KnobState)
    : KnobState * list Callback :=
  let position :=
    Utils.calculatePositionFromMouseAngle mouseAngle (multiRotation s)
      (angleOffset s) (angleRange s) (percentage s) None None in
  let position2 :=
    Utils.snapPosition position (angleOffset s) (angleRange s) (steps s) in
  let value :=
    Utils.getValueFromPercentage (min s) (max s)
      (toNum (Utils.percentage position2)) in
  ({| isActive := true;
      min := min s;
      max := max s;
      multiRotation := multiRotation s;
      angleOffset := angleOffset s;
      angleRange := angleRange s;
      mouseAngle := Some mouseAngle;
      percentage := Utils.percentage position2;
      startPercentage := Utils.percentage position2;
      startValue := Knob.value s;
      value := Some value;
      tracking := tracking s;
      size := size s;
      steps := steps s |},
   [onStart; onInteractiveChange value]
     ++ (if tracking s then [onChange value] else [])).

End Knob.

(** A nullable percentage that is present and lies in [[0, 1]]. *)
Definition in_unit (o : option float) : bool :=
  match o with
  | Some p => (0 <=? p) && (p <=? 1)
  | None => false
  end.

End Binary64.

(** ** Predicates of the further properties *)

(** The token is a command letter or a finite number. *)
Definition finite_token (t : Spiral.Token) : Prop :=
  match t with
  | Spiral.Cmd _ => True
  | Spiral.Num (Spiral.Fin _) => True
  | Spiral.Num _ => False
  end.

(** ** Well-formed configurations and the predicates of the invariants *)

(** A nullable percentage that is present and lies in [[0, 1]]. *)
Definition in_unit (o : option Q) : Prop :=
  exists p, o = Some p /\ 0 <= p /\ p <= 1.

(** An initial value, when one is given, lies between the bounds. *)
Definition initial_in_range (min max : Q) (initialValue : option Q) : Prop :=
  match initialValue with
  | None => True
  | Some v => min <= v /\ v <= max
  end.

(** The invariant of the single-rotation controller that does not snap:
    ordered bounds, a non-zero angle range, no step count, a percentage in
    [[0, 1]], and a start snapshot whose percentage is in [[0, 1]] whenever
    a start value is held. *)
Definition SingleRotationInv (s : Knob.KnobState) : Prop :=
  Knob.multiRotation s = false
  /\ Knob.min s < Knob.max s
  /\ ~ Knob.angleRange s == 0
  /\ Knob.steps s = None
  /\ in_unit (Knob.percentage s)
  /\ (Knob.startValue s = None \/ in_unit (Knob.startPercentage s)).

(** The value is the one derived from the percentage, when both are
    present. *)
Definition value_derived (s : Knob.KnobState) : Prop :=
  match Knob.value s, Knob.percentage s with
  | Some v, Some p => v == Knob.min s + (Knob.max s - Knob.min s) * p
  | _, _ => True
  end.

(** The callback is a call of [onChange]. *)
Definition is_onChange (c : Knob.Callback) : bool :=
  match c with Knob.onChange _ => true | _ => false end.

(** * Properties *)

(** ** Comparisons, truncation and the remainder *)

Lemma ltb_true (a b : Q) : JS.ltb a b = true <-> a < b.
Proof.
  unfold JS.ltb. rewrite negb_true_iff.
  destruct (Qle_bool b a) eqn:E.
  - apply Qle_bool_iff in E. split; [discriminate | intros H; exfalso; lra].
  - split; [intros _ | reflexivity].
    apply Qnot_le_lt. intros H. apply Qle_bool_iff in H. congruence.
Qed.

Lemma ltb_false (a b : Q) : JS.ltb a b = false <-> b <= a.
Proof.
  unfold JS.ltb. rewrite negb_false_iff. apply Qle_bool_iff.
Qed.

Lemma leb_false (a b : Q) : Qle_bool a b = false <-> b < a.
Proof.
  rewrite <- (ltb_true b a). unfold JS.ltb.
  destruct (Qle_bool a b); simpl; split; congruence.
Qed.

(** Case analysis on the boolean comparisons, turning each into the
    order fact it decides. *)
Ltac cmp_cases :=
  repeat match goal with
  | |- context [JS.ltb ?a ?b] =>
      let E := fresh "E" in
      destruct (JS.ltb a b) eqn:E;
      [apply ltb_true in E | apply ltb_false in E]
  | |- context [Qle_bool ?a ?b] =>
      let E := fresh "E" in
      destruct (Qle_bool a b) eqn:E;
      [apply Qle_bool_iff in E | apply leb_false in E]
  end.

Lemma trunc_nonneg (x : Q) :
  0 <= x -> inject_Z (JS.trunc x) <= x /\ x < inject_Z (JS.trunc x) + 1.
Proof.
  intros Hx. unfold JS.trunc.
  destruct (Qle_bool 0 x) eqn:E.
  - split; [apply Qfloor_le |].
    pose proof (Qlt_floor x) as H. rewrite inject_Z_plus in H. exact H.
  - apply leb_false in E. lra.
Qed.

Lemma trunc_neg (x : Q) :
  x < 0 -> x <= inject_Z (JS.trunc x) /\ inject_Z (JS.trunc x) < x + 1.
Proof.
  intros Hx. unfold JS.trunc.
  destruct (Qle_bool 0 x) eqn:E.
  - apply Qle_bool_iff in E. lra.
  - split; [apply Qle_ceiling |].
    pose proof (Qceiling_lt x) as H.
    unfold Z.sub in H. rewrite inject_Z_plus in H. simpl in H.
    change (inject_Z (-1)) with (-1) in H. lra.
Qed.

(** The remainder by a positive divisor lies strictly within one divisor
    of zero, on the side of the dividend. *)
Lemma rem_nonneg (a b : Q) :
  0 < b -> 0 <= a -> 0 <= JS.rem a b /\ JS.rem a b < b.
Proof.
  intros Hb Ha. unfold JS.rem.
  assert (Hq : 0 <= a / b).
  { apply Qle_shift_div_l; lra. }
  destruct (trunc_nonneg _ Hq) as [H1 H2].
  set (t := inject_Z (JS.trunc (a / b))) in *.
  assert (Ha' : a == (a / b) * b) by (field; lra).
  split.
  - assert (b * t <= (a / b) * b) by nra. lra.
  - assert ((a / b) * b < b * (t + 1)) by nra. lra.
Qed.

Lemma rem_neg (a b : Q) :
  0 < b -> a < 0 -> - b < JS.rem a b /\ JS.rem a b <= 0.
Proof.
  intros Hb Ha. unfold JS.rem.
  assert (Hq : a / b < 0).
  { apply Qlt_shift_div_r; lra. }
  destruct (trunc_neg _ Hq) as [H1 H2].
  set (t := inject_Z (JS.trunc (a / b))) in *.
  assert (Ha' : a == (a / b) * b) by (field; lra).
  split.
  - assert (b * t < (a / b + 1) * b) by nra. lra.
  - assert ((a / b) * b <= b * t) by nra. lra.
Qed.

Lemma rem_bound (a b : Q) : 0 < b -> - b < JS.rem a b /\ JS.rem a b < b.
Proof.
  intros Hb. destruct (Qlt_le_dec a 0) as [Ha | Ha].
  - destruct (rem_neg a b Hb Ha). lra.
  - destruct (rem_nonneg a b Hb Ha). lra.
Qed.

(** The normalised step of the [Utils] resolver never leaves a half turn. *)
Lemma validDeltaAngle_range (a pa : Q) :
  -180 <= Utils.validDeltaAngle a pa /\ Utils.validDeltaAngle a pa <= 180.
Proof.
  unfold Utils.validDeltaAngle, JS.gtb.
  assert (H360 : 0 < 360) by lra.
  pose proof (rem_bound (a - pa) 360 H360) as [H1 H2].
  cmp_cases; lra.
Qed.

(** ** The resolver of a subsequent update *)

(** The rejection test of the [Utils] resolver, as an order fact. *)
Lemma reject_test (d : Q) :
  JS.geb d 120 || JS.leb d (-120) = true <-> (120 <= d \/ d <= -120).
Proof.
  unfold JS.geb, JS.leb. rewrite orb_true_iff, !Qle_bool_iff. tauto.
Qed.

Lemma reject_test_false (d : Q) :
  JS.geb d 120 || JS.leb d (-120) = false <-> (-120 < d /\ d < 120).
Proof.
  unfold JS.geb, JS.leb. rewrite orb_false_iff, !leb_false. tauto.
Qed.

Lemma Math_abs_gt (x c : Q) :
  JS.gtb (JS.Math_abs x) c = true <-> (c < x \/ x < - c) \/ (c < 0 /\ x == 0).
Proof.
  unfold JS.gtb, JS.Math_abs. rewrite ltb_true.
  destruct (Qle_bool 0 x) eqn:E;
    [apply Qle_bool_iff in E | apply leb_false in E].
  - split; intros H.
    + left; left; exact H.
    + destruct H as [[H | H] | [H1 H2]]; lra.
  - split; intros H.
    + left; right; lra.
    + destruct H as [[H | H] | [H1 H2]]; lra.
Qed.

(** C1 (as amended).  In multi-rotation mode, with a previous mouse angle:
    the resolver the controller runs ([utils.ts]) normalises the angle step
    into [[-180, 180]] and rejects the sample, returning the previous mouse
    angle and percentage, exactly when the step is at least 120 degrees in
    absolute value; every smaller step is accepted with the percentage
    [previousPercentage + step / angleRange], not clamped.  The exported
    resolver ([utils/angles.ts]) rejects exactly when the raw difference of
    the two angles exceeds 180 degrees in absolute value. *)
Theorem C1_multi_rotation_update
    (mouseAngle angleOffset angleRange previousMouseAngle : Q)
    (percentage previousPercentage : option Q) (previous : Q) :
  let d := Utils.validDeltaAngle mouseAngle previousMouseAngle in
  let r :=
    Utils.calculatePositionFromMouseAngle mouseAngle true angleOffset
      angleRange percentage previousPercentage (Some previousMouseAngle) in
  let r' :=
    Angles.calculatePositionFromMouseAngle mouseAngle true angleOffset
      angleRange percentage (Some previous) (Some previousMouseAngle) in
  (-180 <= d /\ d <= 180)
  /\ (Utils.updated r = false <-> (120 <= d \/ d <= -120))
  /\ (120 <= d \/ d <= -120 ->
      r = Utils.mkPosition false previousMouseAngle previousPercentage)
  /\ (-120 < d /\ d < 120 ->
      r = Utils.mkPosition true mouseAngle
            (Some (JS.toNum previousPercentage + d / angleRange)))
  /\ (Angles.updated r' = false <->
      (180 < mouseAngle - previousMouseAngle
       \/ mouseAngle - previousMouseAngle < -180))
  /\ (Angles.updated r' = false ->
      r' = Angles.mkPosition false previousMouseAngle previous).
Proof.
  intros d r r'.
  assert (Hacc : -120 < d /\ d < 120 ->
      r = Utils.mkPosition true mouseAngle
            (Some (JS.toNum previousPercentage + d / angleRange))).
  { intros H. apply reject_test_false in H.
    unfold r, Utils.calculatePositionFromMouseAngle. fold d.
    rewrite H. reflexivity. }
  assert (Hrej : 120 <= d \/ d <= -120 ->
      r = Utils.mkPosition false previousMouseAngle previousPercentage).
  { intros H. apply reject_test in H.
    unfold r, Utils.calculatePositionFromMouseAngle. fold d.
    rewrite H. reflexivity. }
  split; [apply validDeltaAngle_range |].
  split.
  { split.
    - intros Hu.
      destruct (Qlt_le_dec d 120) as [H1 | H1]; [| left; exact H1].
      destruct (Qlt_le_dec (-120) d) as [H2 | H2]; [| right; exact H2].
      rewrite (Hacc (conj H2 H1)) in Hu. discriminate.
    - intros H. rewrite (Hrej H). reflexivity. }
  split; [exact Hrej |].
  split; [exact Hacc |].
  assert (Hgt : JS.gtb (JS.Math_abs (mouseAngle - previousMouseAngle)) 180 = true
                <-> (180 < mouseAngle - previousMouseAngle
                     \/ mouseAngle - previousMouseAngle < -180)).
  { rewrite Math_abs_gt. split; [intros [H | [H _]] | intros H].
    - destruct H; [left | right]; lra.
    - lra.
    - left. destruct H; [left | right]; lra. }
  unfold r', Angles.calculatePositionFromMouseAngle. simpl negb. cbv iota.
  destruct (JS.gtb (JS.Math_abs (mouseAngle - previousMouseAngle)) 180) eqn:E.
  - split; [| reflexivity].
    split; [intros _; apply Hgt; reflexivity | reflexivity].
  - simpl. split; [| discriminate].
    split; [discriminate |].
    intros H. apply Hgt in H. discriminate.
Qed.

(** C1 as stated fails on both resolvers.  [utils.ts] rejects a step of 150
    degrees, which does not exceed 180; [utils/angles.ts] accepts a step of
    90 degrees from 0.875 and returns 1, not [0.875 + 90 / 360]. *)
Lemma C1_counterexample :
  Utils.validDeltaAngle 150 0 == 150
  /\ Utils.updated
       (Utils.calculatePositionFromMouseAngle 150 true 0 360
          (Some 0.5) (Some 0.5) (Some 0)) = false
  /\ Angles.updated
       (Angles.calculatePositionFromMouseAngle 90 true 0 360
          (Some 0.875) (Some 0.875) (Some 0)) = true
  /\ Angles.percentage
       (Angles.calculatePositionFromMouseAngle 90 true 0 360
          (Some 0.875) (Some 0.875) (Some 0)) == 1
  /\ ~ Angles.percentage
       (Angles.calculatePositionFromMouseAngle 90 true 0 360
          (Some 0.875) (Some 0.875) (Some 0)) == 0.875 + 90 / 360.
Proof.
  repeat split; try reflexivity.
  vm_compute. discriminate.
Qed.



(** ** First contact *)

(** C5 (as amended).  With [angleOffset = 0] and [angleRange = 360] the
    mouse angle 0, the top of the circle where the range starts, resolves
    to the percentage 0; the midpoint 0.5 is the percentage of the mouse
    angle 180.  Both copies of [calculatePercentageFromMouseAngle] agree. *)
Theorem C5_top_of_circle_is_range_start :
  Utils.calculatePercentageFromMouseAngle 0 0 360 == 0
  /\ Angles.calculatePercentageFromMouseAngle 0 0 360 == 0
  /\ Utils.calculatePercentageFromMouseAngle 180 0 360 == 0.5
  /\ Angles.calculatePercentageFromMouseAngle 180 0 360 == 0.5.
Proof.
  repeat split.
Qed.

(** C5 as stated fails: the percentage of the mouse angle 0 is not 0.5. *)
Lemma C5_counterexample :
  ~ Utils.calculatePercentageFromMouseAngle 0 0 360 == 0.5
  /\ ~ Angles.calculatePercentageFromMouseAngle 0 0 360 == 0.5.
Proof.
  split; vm_compute; discriminate.
Qed.

(** ** Floors and rounding to an integer *)

Lemma Qeq_bool_false (a b : Q) : ~ a == b -> Qeq_bool a b = false.
Proof.
  intros H. destruct (Qeq_bool a b) eqn:E; [| reflexivity].
  apply Qeq_bool_iff in E. contradiction.
Qed.

(** The floor of an integer plus one half is the integer. *)
Lemma Qfloor_half (k : Z) (x : Q) : x == inject_Z k + 0.5 -> Qfloor x = k.
Proof.
  intros H. rewrite (Qfloor_comp _ _ H).
  pose proof (Qfloor_le (inject_Z k + 0.5)) as H1.
  pose proof (Qlt_floor (inject_Z k + 0.5)) as H2.
  set (f := Qfloor (inject_Z k + 0.5)) in *.
  rewrite inject_Z_plus in H2. change (inject_Z 1) with 1 in H2.
  assert (Hlo : inject_Z f < inject_Z (k + 1)).
  { rewrite inject_Z_plus. change (inject_Z 1) with 1. lra. }
  assert (Hhi : inject_Z k < inject_Z (f + 1)).
  { rewrite inject_Z_plus. change (inject_Z 1) with 1. lra. }
  rewrite <- Zlt_Qlt in Hlo, Hhi. lia.
Qed.

Lemma Qfloor_nonneg (x : Q) : 0 <= x -> (0 <= Qfloor x)%Z.
Proof.
  intros H. change 0%Z with (Qfloor 0). apply Qfloor_resp_le. exact H.
Qed.

(** The floor of a number between an integer and its successor. *)
Lemma Qfloor_unique (k : Z) (x : Q) :
  inject_Z k <= x -> x < inject_Z k + 1 -> Qfloor x = k.
Proof.
  intros Hlo Hhi.
  pose proof (Qfloor_le x) as H1.
  pose proof (Qlt_floor x) as H2.
  generalize dependent (Qfloor x). intros f H1 H2.
  rewrite inject_Z_plus in H2. change (inject_Z 1) with 1 in H2.
  assert (Ha : inject_Z f < inject_Z (k + 1)).
  { rewrite inject_Z_plus. change (inject_Z 1) with 1. lra. }
  assert (Hb : inject_Z k < inject_Z (f + 1)).
  { rewrite inject_Z_plus. change (inject_Z 1) with 1. lra. }
  rewrite <- Zlt_Qlt in Ha, Hb. lia.
Qed.

(** ** Snapping in binary64 *)

Module Rounding.
Import Floats.PrimFloat.
Local Open Scope float_scope.

(** C9.  In binary64 the remainder-based [snapPercentage] of [utils.ts],
    the one the controller runs, is not exact at the end point 1 and not
    idempotent.  With 3 intervals it sends 1 to the number just below 1, and
    with 20 intervals to the number just above 1.  With 12 intervals it
    sends 0.25, which is a multiple of the step, to the number just below
    0.25, and snapping that result again gives 0.25, another number.  The
    rounding-based [snapPercentage] of [utils/math.ts] returns exactly 1, 1
    and 0.25 on the same inputs.  The end point 0 is exact in [utils.ts]
    for every number of intervals. *)
Theorem C9_remainder_snapping_is_inexact :
  (forall n, Binary64.Utils.snapPercentage 0 n = 0)
  /\ (Binary64.Utils.snapPercentage 1 3 = next_down 1
      /\ (Binary64.Utils.snapPercentage 1 3 <? 1) = true)
  /\ (Binary64.Utils.snapPercentage 1 20 = next_up 1
      /\ (1 <? Binary64.Utils.snapPercentage 1 20) = true)
  /\ (Binary64.Utils.snapPercentage 0.25 12 = next_down 0.25
      /\ Binary64.Utils.snapPercentage
           (Binary64.Utils.snapPercentage 0.25 12) 12 = 0.25
      /\ (Binary64.Utils.snapPercentage
            (Binary64.Utils.snapPercentage 0.25 12) 12
          =? Binary64.Utils.snapPercentage 0.25 12) = false)
  /\ Binary64.MathUtils.snapPercentage 1 3 = 1
  /\ Binary64.MathUtils.snapPercentage 1 20 = 1
  /\ Binary64.MathUtils.snapPercentage 0.25 12 = 0.25.
Proof.
  split; [intros n; reflexivity |].
  repeat split; vm_compute; reflexivity.
Qed.

(** C7.  In binary64 the single-rotation controller stores a percentage
    outside [[0, 1]].  A knob over [[0, 100]] with 20 snapping steps, started
    at the mouse angle 359: the resolver returns a percentage in [[0, 1]],
    the snapping of [utils.ts] turns it into the number just above 1, and
    [handleStart] stores it, with the value just above 100 derived from it.
    The same start on the same knob without snapping stores a percentage in
    [[0, 1]].  With [angleRange = 0] and no snapping, a start at the mouse
    angle 0 stores [NaN]. *)
Theorem C7_snapped_percentage_leaves_unit_interval :
  let s :=
    fst (Binary64.Knob.handleStart 359
           (Binary64.Knob.createKnobState 0 100 false (Some 50) 0 360 100
              (Some 20) true)) in
  let u :=
    fst (Binary64.Knob.handleStart 359
           (Binary64.Knob.createKnobState 0 100 false (Some 50) 0 360 100
              None true)) in
  let t :=
    fst (Binary64.Knob.handleStart 0
           (Binary64.Knob.createKnobState 0 100 false (Some 50) 0 0 100
              None true)) in
  (Binary64.Knob.multiRotation s = false
   /\ Binary64.Utils.calculatePercentageFromMouseAngle 359 0 360
      = 0.5 + 179 / 360
   /\ Binary64.Knob.percentage s = Some (next_up 1)
   /\ Binary64.in_unit (Binary64.Knob.percentage s) = false
   /\ Binary64.Knob.value s = Some (next_up (next_up 100)))
  /\ (Binary64.Knob.percentage u = Some (0.5 + 179 / 360)
      /\ Binary64.in_unit (Binary64.Knob.percentage u) = true)
  /\ (Binary64.Knob.multiRotation t = false
      /\ Binary64.Knob.percentage t = Some nan
      /\ Binary64.in_unit (Binary64.Knob.percentage t) = false).
Proof.
  repeat split; vm_compute; reflexivity.
Qed.

End Rounding.

(** ** The percentage of the single-rotation controller *)

Lemma clamp_range (lo hi v : Q) :
  lo <= hi -> lo <= Utils.clamp lo hi v /\ Utils.clamp lo hi v <= hi.
Proof.
  intros H. unfold Utils.clamp, JS.Math_max, JS.Math_min.
  cmp_cases; lra.
Qed.

Lemma first_contact_unit (a off rng : Q) :
  0 <= Utils.calculatePercentageFromMouseAngle a off rng
  /\ Utils.calculatePercentageFromMouseAngle a off rng <= 1.
Proof.
  unfold Utils.calculatePercentageFromMouseAngle. apply clamp_range. lra.
Qed.

Lemma in_unit_some (p : Q) : 0 <= p -> p <= 1 -> in_unit (Some p).
Proof. intros H0 H1. exists p. auto. Qed.

(** The single-rotation resolver keeps the percentage in [[0, 1]]. *)
Lemma resolver_single_unit (a off rng : Q) (pct pp pa : option Q) :
  in_unit pp ->
  in_unit (Utils.percentage
             (Utils.calculatePositionFromMouseAngle a false off rng pct pp pa)).
Proof.
  intros Hpp. unfold Utils.calculatePositionFromMouseAngle.
  destruct pa as [pa |].
  - destruct (JS.geb _ 120 || JS.leb _ (-120)); [exact Hpp |].
    simpl negb. cbv iota. unfold JS.gtb.
    set (np := JS.toNum pp + Utils.validDeltaAngle a pa / rng).
    destruct (JS.ltb np 0) eqn:E0; simpl.
    + apply in_unit_some; lra.
    + destruct (JS.ltb 1 np) eqn:E1; simpl.
      * apply in_unit_some; lra.
      * apply ltb_false in E0. apply ltb_false in E1.
        apply in_unit_some; assumption.
  - simpl. destruct (first_contact_unit a off rng).
    apply in_unit_some; assumption.
Qed.

(** Reduction of the handlers and of the field assignments, leaving the
    arithmetic alone. *)
Ltac knob_red :=
  cbn [fst snd Knob.handle Knob.handleStart Knob.handleMove Knob.handleEnd
       Knob.handleCancel Knob.handleStep Knob.createKnobState
       Knob.set_isActive Knob.set_value Knob.set_percentage
       Knob.set_mouseAngle Knob.set_startPercentage Knob.set_startValue
       Knob.isActive Knob.min Knob.max Knob.value Knob.percentage
       Knob.mouseAngle Knob.startPercentage Knob.startValue
       Knob.multiRotation Knob.angleOffset Knob.angleRange Knob.tracking
       Knob.size Knob.steps].

(** Without a step count [snapPosition] returns the position it is
    given. *)
Lemma snapPosition_without_steps (pos : Utils.Position) (off rng : Q) :
  Utils.snapPosition pos off rng None = pos.
Proof.
  unfold Utils.snapPosition. cbn [JS.truthy negb].
  rewrite orb_true_r. reflexivity.
Qed.

(** Every handler preserves the single-rotation invariant. *)
Lemma handleStart_inv (a : Q) (s : Knob.KnobState) :
  SingleRotationInv s -> SingleRotationInv (fst (Knob.handleStart a s)).
Proof.
  intros (Hm & Hlt & Hrng & Hst & Hp & Hsp).
  assert (Hnew : in_unit (Utils.percentage
            (Utils.snapPosition
               (Utils.calculatePositionFromMouseAngle a false (Knob.angleOffset s)
                  (Knob.angleRange s) (Knob.percentage s) None None)
               (Knob.angleOffset s) (Knob.angleRange s) (Knob.steps s)))).
  { rewrite Hst, snapPosition_without_steps.
    simpl. destruct (first_contact_unit a (Knob.angleOffset s) (Knob.angleRange s)).
    apply in_unit_some; assumption. }
  unfold SingleRotationInv. knob_red. rewrite Hm.
  repeat split; auto.
Qed.

Lemma handleMove_inv (a : Q) (s : Knob.KnobState) :
  SingleRotationInv s -> SingleRotationInv (fst (Knob.handleMove a s)).
Proof.
  intros (Hm & Hlt & Hrng & Hst & Hp & Hsp).
  unfold Knob.handleMove.
  destruct (negb (Knob.isActive s)); [repeat split; assumption |].
  unfold SingleRotationInv. knob_red. rewrite Hm.
  repeat split; auto.
  rewrite Hst, snapPosition_without_steps.
  apply resolver_single_unit. exact Hp.
Qed.

Lemma handleEnd_inv (s : Knob.KnobState) :
  SingleRotationInv s -> SingleRotationInv (fst (Knob.handleEnd s)).
Proof.
  intros (Hm & Hlt & Hrng & Hst & Hp & Hsp).
  unfold SingleRotationInv. knob_red.
  repeat split; auto.
Qed.

Lemma handleCancel_inv (s : Knob.KnobState) :
  SingleRotationInv s -> SingleRotationInv (fst (Knob.handleCancel s)).
Proof.
  intros (Hm & Hlt & Hrng & Hst & Hp & Hsp).
  unfold SingleRotationInv, Knob.handleCancel.
  destruct (Knob.startValue s) as [sv |] eqn:E; knob_red.
  - destruct Hsp as [Hsp | Hsp]; [discriminate |].
    repeat split; auto.
  - repeat split; auto.
Qed.

Lemma handleStep_inv (d : Q) (s : Knob.KnobState) :
  SingleRotationInv s -> SingleRotationInv (fst (Knob.handleStep d s)).
Proof.
  intros (Hm & Hlt & Hrng & Hst & Hp & Hsp).
  unfold Knob.handleStep.
  destruct (Knob.value s) as [v |]; [| repeat split; assumption].
  unfold SingleRotationInv. knob_red.
  repeat split; auto.
  unfold Utils.getPercentageFromValue.
  destruct (clamp_range (Knob.min s) (Knob.max s) (v + d)) as [H1 H2]; [lra |].
  apply in_unit_some.
  - apply Qle_shift_div_l; lra.
  - apply Qle_shift_div_r; lra.
Qed.

Lemma handle_inv (e : Knob.Event) (s : Knob.KnobState) :
  SingleRotationInv s -> SingleRotationInv (fst (Knob.handle e s)).
Proof.
  destruct e; cbn [Knob.handle].
  - apply handleStart_inv.
  - apply handleMove_inv.
  - apply handleEnd_inv.
  - apply handleCancel_inv.
  - apply handleStep_inv.
Qed.

Lemma run_inv (es : list Knob.Event) (s : Knob.KnobState) :
  SingleRotationInv s -> SingleRotationInv (fst (Knob.run es s)).
Proof.
  revert s. induction es as [| e es IH]; intros s Hs; cbn [Knob.run];
    [exact Hs |].
  pose proof (handle_inv e s Hs) as H1.
  destruct (Knob.handle e s) as [s1 cs1]. cbn [fst] in H1.
  specialize (IH s1 H1).
  destruct (Knob.run es s1) as [s2 cs2]. exact IH.
Qed.

Lemma createKnobState_inv (min max : Q) (initialValue : option Q)
    (angleOffset angleRange size : Q) (tracking : bool) :
  min < max -> ~ angleRange == 0 -> initial_in_range min max initialValue ->
  SingleRotationInv
    (Knob.createKnobState min max false initialValue angleOffset angleRange
       size None tracking).
Proof.
  intros Hlt Hrng Hin. unfold SingleRotationInv. knob_red.
  repeat split; auto.
  destruct (JS.truthy initialValue) eqn:E.
  - destruct initialValue as [v |]; [| discriminate].
    cbn [JS.toNum initial_in_range] in *.
    destruct Hin. apply in_unit_some.
    + apply Qle_shift_div_l; lra.
    + apply Qle_shift_div_r; lra.
  - apply in_unit_some; lra.
Qed.

(** X27.  A single-rotation knob that does not snap keeps its percentage
    in [[0, 1]]: with [multiRotation = false], [min < max], a non-zero
    [angleRange], no step count and an initial value within [[min, max]],
    the percentage is present and in [[0, 1]] after every sequence of start,
    move, end, cancel and step transitions.  Every percentage the handlers
    store on this path is selected by a comparison against 0 and 1 or is a
    quotient of two ordered differences. *)
Theorem percentage_in_unit_without_snapping
    (min max : Q) (initialValue : option Q) (angleOffset angleRange size : Q)
    (tracking : bool) (es : list Knob.Event) :
  min < max -> ~ angleRange == 0 -> initial_in_range min max initialValue ->
  in_unit
    (Knob.percentage
       (fst (Knob.run es
               (Knob.createKnobState min max false initialValue angleOffset
                  angleRange size None tracking)))).
Proof.
  intros Hlt Hrng Hin.
  pose proof (createKnobState_inv min max initialValue angleOffset angleRange
                size tracking Hlt Hrng Hin) as H0.
  pose proof (run_inv es _ H0) as (_ & _ & _ & _ & H & _). exact H.
Qed.

(** An instance of X27: a knob over [[0, 100]], started, dragged, stepped
    and cancelled. *)
Lemma percentage_in_unit_without_snapping_witness :
  in_unit
    (Knob.percentage
       (fst (Knob.run
               [Knob.start 200; Knob.move 300; Knob.step 1; Knob.cancel]
               (Knob.createKnobState 0 100 false (Some 10) 0 360 100 None
                  true)))).
Proof.
  assert (H1 : 0 < 100) by lra.
  assert (H2 : ~ 360 == 0) by (intros E; vm_compute in E; discriminate).
  assert (H3 : initial_in_range 0 100 (Some 10)).
  { cbn [initial_in_range]. lra. }
  exact (percentage_in_unit_without_snapping 0 100 (Some 10) 0 360 100 true
           [Knob.start 200; Knob.move 300; Knob.step 1; Knob.cancel]
           H1 H2 H3).
Defined.

(** ** Cancelling an interaction *)

Lemma handleMove_frame (a : Q) (s : Knob.KnobState) :
  Knob.startValue (fst (Knob.handleMove a s)) = Knob.startValue s
  /\ Knob.tracking (fst (Knob.handleMove a s)) = Knob.tracking s
  /\ (Knob.tracking s = false ->
      forallb (fun c => negb (is_onChange c)) (snd (Knob.handleMove a s)) = true).
Proof.
  unfold Knob.handleMove.
  destruct (negb (Knob.isActive s)); knob_red; [auto |].
  repeat split. intros ->. reflexivity.
Qed.

(** A drag keeps the start snapshot of the value and the tracking policy,
    and without tracking it never calls [onChange]. *)
Lemma moves_frame (moves : list Q) (s : Knob.KnobState) :
  Knob.startValue (fst (Knob.run (map Knob.move moves) s)) = Knob.startValue s
  /\ Knob.tracking (fst (Knob.run (map Knob.move moves) s)) = Knob.tracking s
  /\ (Knob.tracking s = false ->
      forallb (fun c => negb (is_onChange c))
        (snd (Knob.run (map Knob.move moves) s)) = true).
Proof.
  revert s. induction moves as [| a moves IH]; intros s;
    cbn [map Knob.run Knob.handle fst snd]; [auto |].
  destruct (handleMove_frame a s) as (H1 & H2 & H3).
  destruct (Knob.handleMove a s) as [s1 cs1]. cbn [fst snd] in *.
  destruct (IH s1) as (I1 & I2 & I3).
  destruct (Knob.run (map Knob.move moves) s1) as [s2 cs2]. cbn [fst snd] in *.
  repeat split; try congruence.
  intros Ht. rewrite forallb_app, (H3 Ht). cbn [andb].
  apply I3. congruence.
Qed.

Lemma handleStart_frame (a : Q) (s : Knob.KnobState) :
  Knob.startValue (fst (Knob.handleStart a s)) = Knob.value s
  /\ Knob.tracking (fst (Knob.handleStart a s)) = Knob.tracking s
  /\ (Knob.tracking s = false ->
      forallb (fun c => negb (is_onChange c)) (snd (Knob.handleStart a s)) = true).
Proof.
  knob_red. repeat split. intros ->. reflexivity.
Qed.

(** C6.  An interaction that starts when the value is [v0] and is then
    dragged through any sequence of moves is cancelled as follows: the
    value is [v0] again, the start snapshot is cleared, the controller is
    idle, the callbacks of the cancellation are [onChange v0] exactly when
    tracking is on, followed by [onEnd]; and without tracking the whole
    interaction never calls [onChange]. *)
Theorem C6_cancel_restores_start_value
    (s : Knob.KnobState) (a : Q) (moves : list Q) (v0 : Q) :
  Knob.value s = Some v0 ->
  let dragged := Knob.run (Knob.start a :: map Knob.move moves) s in
  let cancelled := Knob.handleCancel (fst dragged) in
  Knob.value (fst cancelled) = Some v0
  /\ Knob.startValue (fst cancelled) = None
  /\ Knob.startPercentage (fst cancelled) = None
  /\ Knob.isActive (fst cancelled) = false
  /\ snd cancelled
     = (if Knob.tracking s then [Knob.onChange v0] else []) ++ [Knob.onEnd]
  /\ (Knob.tracking s = false ->
      forallb (fun c => negb (is_onChange c))
        (snd dragged ++ snd cancelled) = true).
Proof.
  intros Hv dragged cancelled.
  destruct (handleStart_frame a s) as (S1 & S2 & S3).
  unfold cancelled, dragged. clear cancelled dragged.
  cbn [Knob.run Knob.handle].
  destruct (Knob.handleStart a s) as [s1 cs1]. cbn [fst snd] in S1, S2, S3.
  destruct (moves_frame moves s1) as (M1 & M2 & M3).
  destruct (Knob.run (map Knob.move moves) s1) as [s2 cs2].
  cbn [fst snd] in M1, M2, M3 |- *.
  assert (Hsv : Knob.startValue s2 = Some v0) by congruence.
  assert (Htr : Knob.tracking s2 = Knob.tracking s) by congruence.
  unfold Knob.handleCancel. rewrite Hsv. knob_red. rewrite Htr.
  repeat split; try assumption.
  intros Ht. rewrite Ht. rewrite !forallb_app, (S3 Ht).
  rewrite M3 by congruence. reflexivity.
Qed.

(** An instance of C6: a knob at the value 10, without tracking, started
    at 36 degrees and dragged to 90 and 180 degrees before the cancel. *)
Lemma C6_witness :
  Knob.value (Knob.createKnobState 0 100 false (Some 10) 0 360 100 None false)
  = Some 10
  /\ Knob.value
       (fst (Knob.handleCancel
               (fst (Knob.run (Knob.start 36 :: map Knob.move [90; 180])
                       (Knob.createKnobState 0 100 false (Some 10) 0 360 100
                          None false)))))
     = Some 10.
Proof.
  split; [vm_compute; reflexivity |].
  exact (proj1 (C6_cancel_restores_start_value
                  (Knob.createKnobState 0 100 false (Some 10) 0 360 100
                     None false)
                  36 [90; 180] 10 eq_refl)).
Defined.

(** ** A rejected sample *)

(** The resolver reports [updated = false] only on its rejection path, and
    then returns the previous mouse angle and percentage. *)
Lemma resolver_rejected (a : Q) (m : bool) (off rng : Q) (pct pp pa : option Q) :
  Utils.updated (Utils.calculatePositionFromMouseAngle a m off rng pct pp pa)
  = false ->
  exists pa', pa = Some pa'
    /\ Utils.calculatePositionFromMouseAngle a m off rng pct pp pa
       = Utils.mkPosition false pa' pp.
Proof.
  unfold Utils.calculatePositionFromMouseAngle.
  destruct pa as [pa' |].
  - destruct (JS.geb _ 120 || JS.leb _ (-120)).
    + intros _. exists pa'. split; reflexivity.
    + destruct (negb m && _); discriminate.
  - destruct m; discriminate.
Qed.

(** C2 (what the code does).  A move during an active interaction whose
    sample the resolver rejects is not discarded by [handleMove]: the
    percentage is kept, but the stored mouse angle becomes the rejected
    angle, the value is recomputed from the percentage, and
    [onInteractiveChange], and [onChange] under tracking, are called. *)
Theorem C2_rejected_sample_is_not_discarded (s : Knob.KnobState) (a : Q) :
  Knob.isActive s = true ->
  Utils.updated
    (Utils.calculatePositionFromMouseAngle a (Knob.multiRotation s)
       (Knob.angleOffset s) (Knob.angleRange s) (Knob.percentage s)
       (Knob.percentage s) (Knob.mouseAngle s)) = false ->
  let v :=
    Utils.getValueFromPercentage (Knob.min s) (Knob.max s)
      (JS.toNum (Knob.percentage s)) in
  Knob.handleMove a s
  = (Knob.set_value (Some v)
       (Knob.set_percentage (Knob.percentage s)
          (Knob.set_mouseAngle (Some a) s)),
     [Knob.onInteractiveChange v]
       ++ (if Knob.tracking s then [Knob.onChange v] else [])).
Proof.
  intros Hact Hrej v.
  destruct (resolver_rejected _ _ _ _ _ _ _ Hrej) as (pa' & Hpa & Hpos).
  unfold Knob.handleMove. rewrite Hact. cbn [negb].
  rewrite Hpos. unfold Utils.snapPosition.
  cbn [Utils.updated Utils.percentage negb orb].
  reflexivity.
Qed.

(** An instance of C2: after a start at 0 degrees the sample at 180
    degrees is rejected by the resolver, and the move still stores the angle
    180 and calls both change callbacks. *)
Lemma C2_witness :
  let s :=
    fst (Knob.handleStart 0
           (Knob.createKnobState 0 100 false (Some 10) 0 360 100 None true)) in
  (Knob.isActive s = true
   /\ Knob.mouseAngle s = Some 0
   /\ Utils.updated
        (Utils.calculatePositionFromMouseAngle 180 (Knob.multiRotation s)
           (Knob.angleOffset s) (Knob.angleRange s) (Knob.percentage s)
           (Knob.percentage s) (Knob.mouseAngle s)) = false)
  /\ Knob.mouseAngle (fst (Knob.handleMove 180 s)) = Some 180
  /\ snd (Knob.handleMove 180 s)
     = [Knob.onInteractiveChange
          (Utils.getValueFromPercentage (Knob.min s) (Knob.max s)
             (JS.toNum (Knob.percentage s)));
        Knob.onChange
          (Utils.getValueFromPercentage (Knob.min s) (Knob.max s)
             (JS.toNum (Knob.percentage s)))].
Proof.
  intros s.
  assert (H1 : Knob.isActive s = true) by reflexivity.
  assert (H2 : Utils.updated
        (Utils.calculatePositionFromMouseAngle 180 (Knob.multiRotation s)
           (Knob.angleOffset s) (Knob.angleRange s) (Knob.percentage s)
           (Knob.percentage s) (Knob.mouseAngle s)) = false)
    by (vm_compute; reflexivity).
  split; [repeat split; assumption |].
  rewrite (C2_rejected_sample_is_not_discarded s 180 H1 H2).
  split; reflexivity.
Defined.

(** ** The value derived from the percentage *)

(** A start and an accepted or rejected move leave the value derived from
    the percentage. *)
Lemma handleStart_value_derived (a : Q) (s : Knob.KnobState) :
  value_derived (fst (Knob.handleStart a s)).
Proof.
  unfold value_derived. knob_red.
  destruct (Utils.percentage _) as [p |]; [| exact I].
  cbn [JS.toNum]. unfold Utils.getValueFromPercentage. reflexivity.
Qed.

Lemma handleMove_value_derived (a : Q) (s : Knob.KnobState) :
  Knob.isActive s = true -> value_derived (fst (Knob.handleMove a s)).
Proof.
  intros Hact. unfold value_derived, Knob.handleMove.
  rewrite Hact. cbn [negb]. knob_red.
  destruct (Utils.percentage _) as [p |]; [| exact I].
  cbn [JS.toNum]. unfold Utils.getValueFromPercentage. reflexivity.
Qed.

(** A cancellation right after a start restores the value held before the
    start, but keeps the percentage of the start position. *)
Lemma start_cancel_state (a v0 : Q) (s : Knob.KnobState) :
  Knob.value s = Some v0 ->
  Knob.value (fst (Knob.handleCancel (fst (Knob.handleStart a s)))) = Some v0
  /\ Knob.percentage (fst (Knob.handleCancel (fst (Knob.handleStart a s))))
     = Knob.percentage (fst (Knob.handleStart a s)).
Proof.
  intros Hv. unfold Knob.handleCancel.
  destruct (handleStart_frame a s) as (S1 & _ & _).
  rewrite S1, Hv. knob_red. rewrite ?Hv. split; reflexivity.
Qed.

(** C3 (failing input).  A knob over [[0, 100]] with initial value 10,
    started at the mouse angle 180 and cancelled: the value is derived from
    the percentage before the start and after it, but after the
    cancellation the value is 10 while the percentage is 0.5. *)
Theorem C3_cancel_breaks_value_derivation :
  let s0 := Knob.createKnobState 0 100 false (Some 10) 0 360 100 None true in
  let s := fst (Knob.run [Knob.start 180; Knob.cancel] s0) in
  value_derived s0
  /\ value_derived (fst (Knob.handleStart 180 s0))
  /\ Knob.multiRotation s = false
  /\ Knob.value s = Some 10
  /\ (exists p, Knob.percentage s = Some p /\ p == 0.5)
  /\ ~ value_derived s.
Proof.
  intros s0 s.
  split; [vm_compute; reflexivity |].
  split; [apply handleStart_value_derived |].
  split; [reflexivity |].
  split; [vm_compute; reflexivity |].
  split.
  - eexists. split; vm_compute; reflexivity.
  - vm_compute. discriminate.
Qed.

(** ** Stepping *)

(** C10 (as amended).  A step is applied in every state, active or idle:
    its effect and its callbacks do not depend on [isActive], which it
    leaves unchanged.  When a value is present the new value is the old one
    plus the direction, clamped to the bounds, the percentage is recomputed
    from it, and [onInteractiveChange] and [onChange] are both called with
    it; only when the value is null is the step ignored. *)
Theorem C10_step_applies_in_every_state
    (direction : Q) (s : Knob.KnobState) (active : bool) :
  Knob.handleStep direction (Knob.set_isActive active s)
  = (Knob.set_isActive active (fst (Knob.handleStep direction s)),
     snd (Knob.handleStep direction s))
  /\ Knob.isActive (fst (Knob.handleStep direction s)) = Knob.isActive s
  /\ match Knob.value s with
     | Some v =>
         let v' := Utils.clamp (Knob.min s) (Knob.max s) (v + direction) in
         Knob.value (fst (Knob.handleStep direction s)) = Some v'
         /\ Knob.percentage (fst (Knob.handleStep direction s))
            = Some (Utils.getPercentageFromValue (Knob.min s) (Knob.max s) v')
         /\ snd (Knob.handleStep direction s)
            = [Knob.onInteractiveChange v'; Knob.onChange v']
     | None => Knob.handleStep direction s = (s, [])
     end.
Proof.
  unfold Knob.handleStep. knob_red.
  destruct (Knob.value s) as [v |]; knob_red; repeat split.
Qed.

(** C10 as stated fails: in the active state reached by a start at the
    mouse angle 180 on a knob over [[0, 100]], where the value is 50, a
    step of [+1] moves the value to 51 and calls both change callbacks. *)
Lemma C10_counterexample :
  let s :=
    fst (Knob.handleStart 180
           (Knob.createKnobState 0 100 false (Some 10) 0 360 100 None true)) in
  Knob.isActive s = true
  /\ (exists v, Knob.value s = Some v /\ v == 50)
  /\ (exists v',
        Knob.value (fst (Knob.handleStep 1 s)) = Some v'
        /\ v' == 51
        /\ snd (Knob.handleStep 1 s)
           = [Knob.onInteractiveChange v'; Knob.onChange v']).
Proof.
  intros s.
  split; [reflexivity |].
  split.
  - eexists. split; vm_compute; reflexivity.
  - eexists. split; [vm_compute; reflexivity |].
    split; vm_compute; reflexivity.
Qed.

(** ** The degenerate spiral *)

Lemma segments_same (p : Q) : Spiral.segments p p = 0%Z.
Proof.
  unfold Spiral.segments, JS.Math_ceil.
  assert (H : p - p == 0) by ring.
  rewrite (Qceiling_comp _ _ H). reflexivity.
Qed.

(** C8 (failing input).  With equal percentage endpoints the segment count
    is 0, nothing raises it, the single sample divides 0 by 0, and every
    coordinate of the generated path is [NaN], whatever the radii, the
    angles and the trigonometric functions are. *)
Theorem C8_degenerate_spiral_is_NaN
    (PI : Q) (cos sin : Q -> Q)
    (p angleOffset angleRange arcWidth radiusFrom radiusTo center : Q) :
  Spiral.segments p p = 0%Z
  /\ Spiral.jdiv (Spiral.Fin (inject_Z 0)) (Spiral.Fin (inject_Z 0))
     = Spiral.NaN
  /\ Spiral.calcPath PI cos sin (Some p) (Some p) angleOffset angleRange
       arcWidth radiusFrom radiusTo center
     = [Spiral.M; Spiral.Num Spiral.NaN; Spiral.Num Spiral.NaN;
        Spiral.A;
        Spiral.L; Spiral.Num Spiral.NaN; Spiral.Num Spiral.NaN;
        Spiral.A; Spiral.z].
Proof.
  split; [apply segments_same |].
  split; [reflexivity |].
  unfold Spiral.calcPath, Spiral.ordered, JS.leb.
  assert (E : Qle_bool p p = true) by (apply Qle_bool_iff; lra).
  rewrite E, segments_same.
  reflexivity.
Qed.

(** With distinct endpoints the segment count is at least four, and the
    fraction of every sample is a finite number. *)
Lemma segments_at_least_four (percentageMin percentageMax : Q) :
  percentageMin < percentageMax ->
  (4 <= Spiral.segments percentageMin percentageMax)%Z.
Proof.
  intros H. unfold Spiral.segments, JS.Math_ceil.
  pose proof (Qle_ceiling (percentageMax - percentageMin)) as Hc.
  set (c := Qceiling (percentageMax - percentageMin)) in *.
  assert (Hpos : inject_Z 0 < inject_Z c).
  { change (inject_Z 0) with 0. lra. }
  rewrite <- Zlt_Qlt in Hpos. lia.
Qed.

Lemma coef_finite (i nb : Z) :
  (0 < nb)%Z ->
  Spiral.jdiv (Spiral.Fin (inject_Z i)) (Spiral.Fin (inject_Z nb))
  = Spiral.Fin (inject_Z i / inject_Z nb).
Proof.
  intros H. unfold Spiral.jdiv.
  rewrite Qeq_bool_false; [reflexivity |].
  intros E. unfold Qeq in E. cbn in E. lia.
Qed.

(** ** Further facts about the resolvers and the controller *)

(** The accepted multi-rotation sample of [utils/angles.ts] is clamped to
    [[0, 1]]. *)
Lemma angles_multi_rotation_accepted_is_clamped
    (mouseAngle angleOffset angleRange previousMouseAngle previous : Q)
    (percentage : option Q) :
  -180 <= mouseAngle - previousMouseAngle ->
  mouseAngle - previousMouseAngle <= 180 ->
  Angles.calculatePositionFromMouseAngle mouseAngle true angleOffset
    angleRange percentage (Some previous) (Some previousMouseAngle)
  = Angles.mkPosition true mouseAngle
      (MathUtils.clamp 0 1
         (JS.toNum percentage
          + (mouseAngle - previousMouseAngle) / angleRange)).
Proof.
  intros H1 H2. unfold Angles.calculatePositionFromMouseAngle.
  cbn [negb].
  destruct (JS.gtb (JS.Math_abs (mouseAngle - previousMouseAngle)) 180) eqn:E;
    [| reflexivity].
  apply Math_abs_gt in E. exfalso. lra.
Qed.

(** Both resolvers reject the jump from 10 to 200 degrees and return the
    previous percentage. *)
Lemma resolvers_reject_jump_of_190 :
  Utils.calculatePositionFromMouseAngle 200 true 0 360
    (Some 0.25) (Some 0.25) (Some 10)
  = Utils.mkPosition false 10 (Some 0.25)
  /\ Angles.calculatePositionFromMouseAngle 200 true 0 360
       (Some 0.25) (Some 0.25) (Some 10)
     = Angles.mkPosition false 10 0.25.
Proof.
  split; vm_compute; reflexivity.
Qed.

Lemma moves_keep_value (moves : list Q) (s : Knob.KnobState) :
  Knob.value s <> None ->
  Knob.value (fst (Knob.run (map Knob.move moves) s)) <> None.
Proof.
  revert s. induction moves as [| a moves IH]; intros s Hv;
    cbn [map Knob.run Knob.handle fst]; [exact Hv |].
  assert (H1 : Knob.value (fst (Knob.handleMove a s)) <> None).
  { unfold Knob.handleMove.
    destruct (negb (Knob.isActive s)); knob_red; [exact Hv | discriminate]. }
  destruct (Knob.handleMove a s) as [s1 cs1]. cbn [fst] in H1.
  specialize (IH s1 H1).
  destruct (Knob.run (map Knob.move moves) s1) as [s2 cs2]. exact IH.
Qed.

(** X10.  Without tracking, a drag calls [onChange] only at its end, once,
    with the final value. *)
Lemma end_commits_once_without_tracking
    (s : Knob.KnobState) (a : Q) (moves : list Q) :
  Knob.tracking s = false ->
  let dragged := Knob.run (Knob.start a :: map Knob.move moves) s in
  forallb (fun c => negb (is_onChange c)) (snd dragged) = true
  /\ exists v,
       Knob.value (fst dragged) = Some v
       /\ snd (Knob.handleEnd (fst dragged)) = [Knob.onChange v; Knob.onEnd].
Proof.
  intros Ht dragged. unfold dragged. clear dragged.
  cbn [Knob.run Knob.handle].
  destruct (handleStart_frame a s) as (_ & S2 & S3).
  assert (Sv : Knob.value (fst (Knob.handleStart a s)) <> None)
    by (knob_red; discriminate).
  destruct (Knob.handleStart a s) as [s1 cs1]. cbn [fst snd] in S2, S3, Sv.
  destruct (moves_frame moves s1) as (_ & M2 & M3).
  pose proof (moves_keep_value moves s1 Sv) as Mv.
  destruct (Knob.run (map Knob.move moves) s1) as [s2 cs2].
  cbn [fst snd] in M2, M3, Mv |- *.
  split.
  - rewrite forallb_app, (S3 Ht). apply M3. congruence.
  - destruct (Knob.value s2) as [v |] eqn:E; [| contradiction].
    exists v. split; [reflexivity |].
    unfold Knob.handleEnd. rewrite E.
    assert (Ht2 : Knob.tracking s2 = false) by congruence.
    rewrite Ht2. reflexivity.
Qed.

(** * Further properties of the code *)

(** ** Conversions and clamping *)

(** X1.  When the bounds differ, [getValueFromPercentage] and
    [getPercentageFromValue] are inverse to each other, in both orders and
    in both utility files. *)
Theorem value_percentage_round_trips (min max x : Q) :
  ~ min == max ->
  (Utils.getPercentageFromValue min max
     (Utils.getValueFromPercentage min max x) == x
   /\ Utils.getValueFromPercentage min max
        (Utils.getPercentageFromValue min max x) == x)
  /\ (MathUtils.getPercentageFromValue min max
        (MathUtils.getValueFromPercentage min max x) == x
      /\ MathUtils.getValueFromPercentage min max
           (MathUtils.getPercentageFromValue min max x) == x).
Proof.
  intros H.
  unfold Utils.getPercentageFromValue, Utils.getValueFromPercentage,
    MathUtils.getPercentageFromValue, MathUtils.getValueFromPercentage.
  repeat split; field; intros E; apply H; lra.
Qed.

(** An instance of X1: the bounds 0 and 100 and the number 0.25. *)
Lemma value_percentage_round_trips_witness :
  (Utils.getPercentageFromValue 0 100
     (Utils.getValueFromPercentage 0 100 0.25) == 0.25
   /\ Utils.getValueFromPercentage 0 100
        (Utils.getPercentageFromValue 0 100 0.25) == 0.25)
  /\ (MathUtils.getPercentageFromValue 0 100
        (MathUtils.getValueFromPercentage 0 100 0.25) == 0.25
      /\ MathUtils.getValueFromPercentage 0 100
           (MathUtils.getPercentageFromValue 0 100 0.25) == 0.25).
Proof.
  apply (value_percentage_round_trips 0 100 0.25).
  intros E. vm_compute in E. discriminate.
Defined.

(** X2.  [clamp min max value]: with ordered bounds the result lies
    between them, a value already between them is returned unchanged, and
    with inverted bounds the result is [min] whatever the value is.  The two
    copies of [clamp] are the same function. *)
Theorem clamp_contract (lo hi v : Q) :
  (lo <= hi -> lo <= Utils.clamp lo hi v /\ Utils.clamp lo hi v <= hi)
  /\ (lo <= v /\ v <= hi -> Utils.clamp lo hi v == v)
  /\ (hi < lo -> Utils.clamp lo hi v = lo)
  /\ MathUtils.clamp lo hi v = Utils.clamp lo hi v.
Proof.
  unfold MathUtils.clamp, Utils.clamp, JS.Math_max, JS.Math_min.
  destruct (Qle_bool hi v) eqn:E1;
    [apply Qle_bool_iff in E1 | apply leb_false in E1].
  - destruct (Qle_bool lo hi) eqn:E2;
      [apply Qle_bool_iff in E2 | apply leb_false in E2].
    + repeat split; try reflexivity; intros; lra.
    + repeat split; try reflexivity; intros; lra.
  - destruct (Qle_bool lo v) eqn:E2;
      [apply Qle_bool_iff in E2 | apply leb_false in E2].
    + repeat split; try reflexivity; intros; try lra.
    + repeat split; try reflexivity; intros; lra.
Qed.

(** ** The resolver and the snapping of [utils/angles.ts] *)

Lemma floor_index_range (p m : Q) (k : Z) :
  m == inject_Z k -> (0 <= k)%Z -> 0 <= p -> p <= 1 ->
  (0 <= Qfloor (p * m + 0.5) <= k)%Z.
Proof.
  intros Hm Hk H0 H1.
  assert (Hkq : 0 <= inject_Z k).
  { change 0 with (inject_Z 0). rewrite <- Zle_Qle. exact Hk. }
  split.
  - apply Qfloor_nonneg. nra.
  - rewrite <- (Qfloor_half k (inject_Z k + 0.5)) by reflexivity.
    apply Qfloor_resp_le. nra.
Qed.

(** X8.  With a non-zero [angleRange], the resolver of [utils/angles.ts]
    returns a percentage in [[0, 1]] on every path, in multi-rotation mode
    as well, provided the previous percentage, when there is one, is in
    [[0, 1]]: the percentage it returns is the previous one or the result
    of a clamp to [[0, 1]]. *)
Theorem angles_resolver_stays_in_unit
    (mouseAngle : Q) (multiRotation : bool) (angleOffset angleRange : Q)
    (percentage previousPercentage previousMouseAngle : option Q) :
  ~ angleRange == 0 ->
  match previousPercentage with
  | Some q => 0 <= q /\ q <= 1
  | None => True
  end ->
  0 <= Angles.percentage
         (Angles.calculatePositionFromMouseAngle mouseAngle multiRotation
            angleOffset angleRange percentage previousPercentage
            previousMouseAngle)
  /\ Angles.percentage
       (Angles.calculatePositionFromMouseAngle mouseAngle multiRotation
          angleOffset angleRange percentage previousPercentage
          previousMouseAngle) <= 1.
Proof.
  intros _ Hpp.
  assert (Hc : forall x, 0 <= MathUtils.clamp 0 1 x /\ MathUtils.clamp 0 1 x <= 1).
  { intros x. change (MathUtils.clamp 0 1 x) with (Utils.clamp 0 1 x).
    apply clamp_range. lra. }
  unfold Angles.calculatePositionFromMouseAngle,
    Angles.calculatePercentageFromMouseAngle.
  destruct previousMouseAngle as [pa |], previousPercentage as [pp |];
    cbn [Angles.percentage]; try apply Hc.
  destruct multiRotation; cbn [negb Angles.percentage]; try apply Hc.
  destruct (JS.gtb _ 180); cbn [Angles.percentage]; [exact Hpp | apply Hc].
Qed.

(** An instance of X8: a multi-rotation step of 90 degrees from 0.875. *)
Lemma angles_resolver_stays_in_unit_witness :
  0 <= Angles.percentage
         (Angles.calculatePositionFromMouseAngle 90 true 0 360
            (Some 0.875) (Some 0.875) (Some 0))
  /\ Angles.percentage
       (Angles.calculatePositionFromMouseAngle 90 true 0 360
          (Some 0.875) (Some 0.875) (Some 0)) <= 1.
Proof.
  assert (H0 : ~ 360 == 0) by (intros E; vm_compute in E; discriminate).
  assert (H : 0 <= 0.875 /\ 0.875 <= 1) by (split; lra).
  exact (angles_resolver_stays_in_unit 90 true 0 360
           (Some 0.875) (Some 0.875) (Some 0) H0 H).
Defined.

(** X9.  When [snapPosition] of [utils/angles.ts] snaps (an updated
    position and an integer step count [k >= 2]) a percentage of [[0, 1]],
    the result is one of the [k] positions [j / (k - 1)] with
    [0 <= j <= k - 1]; the mouse angle and the updated flag are kept. *)
Theorem angles_snapPosition_snaps_to_grid
    (position : Angles.Position) (n : Q) (k : Z) :
  Angles.updated position = true ->
  0 <= Angles.percentage position /\ Angles.percentage position <= 1 ->
  (2 <= k)%Z /\ n == inject_Z k ->
  Angles.updated (Angles.snapPosition position (Some n)) = true
  /\ Angles.mouseAngle (Angles.snapPosition position (Some n))
     = Angles.mouseAngle position
  /\ exists j : Z,
       (0 <= j <= k - 1)%Z
       /\ Angles.percentage (Angles.snapPosition position (Some n))
          == inject_Z j / inject_Z (k - 1).
Proof.
  intros Hu [H0 H1] [Hk Hn].
  assert (Hkq : 2 <= inject_Z k).
  { change 2 with (inject_Z 2). rewrite <- Zle_Qle. exact Hk. }
  assert (Hm : n - 1 == inject_Z (k - 1)).
  { unfold Z.sub. rewrite inject_Z_plus. change (inject_Z (- (1))) with (-1).
    lra. }
  unfold Angles.snapPosition. rewrite Hu.
  cbn [negb orb JS.truthy JS.toNum].
  rewrite Qeq_bool_false by lra.
  cbn [negb Angles.updated Angles.percentage Angles.mouseAngle].
  split; [reflexivity |]. split; [reflexivity |].
  unfold JS.Math_round.
  exists (Qfloor (Angles.percentage position * (n - 1) + 0.5)).
  split.
  - apply floor_index_range; [exact Hm | lia | exact H0 | exact H1].
  - generalize (Qfloor (Angles.percentage position * (n - 1) + 0.5)).
    intros f. unfold Qdiv.
    apply Qmult_comp; [reflexivity | apply Qinv_comp; exact Hm].
Qed.

(** An instance of X9: the position 0.3 with five steps. *)
Lemma angles_snapPosition_snaps_to_grid_witness :
  exists j : Z,
    (0 <= j <= 5 - 1)%Z
    /\ Angles.percentage
         (Angles.snapPosition (Angles.mkPosition true 108 0.3) (Some 5))
       == inject_Z j / inject_Z (5 - 1).
Proof.
  assert (H1 : 0 <= 0.3 /\ 0.3 <= 1) by (split; lra).
  assert (H2 : (2 <= 5)%Z /\ 5 == inject_Z 5)
    by (split; [lia | vm_compute; reflexivity]).
  exact (proj2 (proj2 (angles_snapPosition_snaps_to_grid
           (Angles.mkPosition true 108 0.3) 5 5 eq_refl H1 H2))).
Defined.

(** ** Further properties of the controller *)

(** An instance of X10: a knob without tracking at
    the value 10, started at 36 degrees and dragged to 90 degrees. *)
Lemma end_commits_once_without_tracking_witness :
  forallb (fun c => negb (is_onChange c))
    (snd (Knob.run (Knob.start 36 :: map Knob.move [90])
            (Knob.createKnobState 0 100 false (Some 10) 0 360 100 None false)))
  = true
  /\ exists v,
       Knob.value
         (fst (Knob.run (Knob.start 36 :: map Knob.move [90])
                 (Knob.createKnobState 0 100 false (Some 10) 0 360 100 None
                    false)))
       = Some v
       /\ snd (Knob.handleEnd
                 (fst (Knob.run (Knob.start 36 :: map Knob.move [90])
                         (Knob.createKnobState 0 100 false (Some 10) 0 360 100
                            None false))))
          = [Knob.onChange v; Knob.onEnd].
Proof.
  exact (end_commits_once_without_tracking
           (Knob.createKnobState 0 100 false (Some 10) 0 360 100 None false)
           36 [90] eq_refl).
Defined.

Lemma idle_moves_are_ignored (moves : list Q) (s : Knob.KnobState) :
  Knob.isActive s = false ->
  Knob.run (map Knob.move moves) s = (s, []).
Proof.
  intros Hs. induction moves as [| a moves IH];
    cbn [map Knob.run Knob.handle]; [reflexivity |].
  unfold Knob.handleMove. rewrite Hs. cbn [negb]. rewrite IH. reflexivity.
Qed.

(** X11.  After an end or a cancel the controller is idle, and every move
    that still arrives is ignored: the state stays as the end or cancel
    left it and no callback is called. *)
Theorem moves_after_release_are_ignored (moves : list Q) (s : Knob.KnobState) :
  Knob.run (map Knob.move moves) (fst (Knob.handleEnd s))
  = (fst (Knob.handleEnd s), [])
  /\ Knob.run (map Knob.move moves) (fst (Knob.handleCancel s))
     = (fst (Knob.handleCancel s), []).
Proof.
  split; apply idle_moves_are_ignored.
  - reflexivity.
  - unfold Knob.handleCancel. destruct (Knob.startValue s); reflexivity.
Qed.

Lemma clamp_above (lo hi x : Q) :
  lo <= hi -> hi <= x -> Utils.clamp lo hi x = hi.
Proof.
  intros H1 H2. unfold Utils.clamp, JS.Math_max, JS.Math_min.
  apply Qle_bool_iff in H1. apply Qle_bool_iff in H2.
  rewrite H2, H1. reflexivity.
Qed.

Lemma clamp_below (lo hi x : Q) :
  lo <= hi -> x <= lo -> Utils.clamp lo hi x == lo.
Proof.
  intros H1 H2. unfold Utils.clamp, JS.Math_max, JS.Math_min.
  destruct (Qle_bool hi x) eqn:E1;
    [apply Qle_bool_iff in E1 | apply leb_false in E1].
  - destruct (Qle_bool lo hi) eqn:E2;
      [apply Qle_bool_iff in E2 | apply leb_false in E2]; lra.
  - destruct (Qle_bool lo x) eqn:E2;
      [apply Qle_bool_iff in E2 | apply leb_false in E2]; lra.
Qed.

(** X13.  A step that would leave the bounds stops at the bound it
    crosses, and still calls [onInteractiveChange] and [onChange], with
    that bound. *)
Theorem step_saturates_at_bounds (direction v : Q) (s : Knob.KnobState) :
  Knob.value s = Some v ->
  Knob.min s <= Knob.max s ->
  (Knob.max s <= v + direction ->
   Knob.handleStep direction s
   = (Knob.set_percentage
        (Some (Utils.getPercentageFromValue (Knob.min s) (Knob.max s)
                 (Knob.max s)))
        (Knob.set_value (Some (Knob.max s)) s),
      [Knob.onInteractiveChange (Knob.max s); Knob.onChange (Knob.max s)]))
  /\ (v + direction <= Knob.min s ->
      exists v',
        v' == Knob.min s
        /\ Knob.value (fst (Knob.handleStep direction s)) = Some v'
        /\ snd (Knob.handleStep direction s)
           = [Knob.onInteractiveChange v'; Knob.onChange v']).
Proof.
  intros Hv Hb. unfold Knob.handleStep. rewrite Hv. split.
  - intros H. rewrite (clamp_above _ _ _ Hb H). reflexivity.
  - intros H. eexists. split; [apply (clamp_below _ _ (v + direction) Hb H) |].
    split; reflexivity.
Qed.

(** An instance of X13: the value 100 of a knob over [[0, 100]], stepped
    by 1. *)
Lemma step_saturates_at_bounds_witness :
  snd (Knob.handleStep 1
         (Knob.createKnobState 0 100 false (Some 100) 0 360 100 None true))
  = [Knob.onInteractiveChange 100; Knob.onChange 100].
Proof.
  assert (Hb : Knob.min
                 (Knob.createKnobState 0 100 false (Some 100) 0 360 100 None
                    true)
               <= Knob.max
                    (Knob.createKnobState 0 100 false (Some 100) 0 360 100 None
                       true))
    by (cbn [Knob.createKnobState Knob.min Knob.max]; lra).
  assert (Hm : Knob.max
                 (Knob.createKnobState 0 100 false (Some 100) 0 360 100 None
                    true) <= 100 + 1)
    by (cbn [Knob.createKnobState Knob.max]; lra).
  rewrite (proj1 (step_saturates_at_bounds 1 100
                    (Knob.createKnobState 0 100 false (Some 100) 0 360 100
                       None true)
                    eq_refl Hb) Hm).
  reflexivity.
Defined.

(** X15.  The initial state is idle, with no mouse angle and no start
    snapshot.  An initial value that is present and not zero becomes the
    value, and the percentage is in [[0, 1]] when the bounds are ordered and
    the initial value lies between them.  An initial value that is absent or
    zero gives the value 0 and the percentage 0 whatever the bounds are, so
    that the value is the one derived from the percentage exactly when
    [min] is 0. *)
Theorem initial_state_of_createKnobState
    (min max : Q) (multiRotation : bool) (initialValue : option Q)
    (angleOffset angleRange size : Q) (steps : option Q) (tracking : bool) :
  let s :=
    Knob.createKnobState min max multiRotation initialValue angleOffset
      angleRange size steps tracking in
  (Knob.isActive s = false
   /\ Knob.mouseAngle s = None
   /\ Knob.startValue s = None
   /\ Knob.startPercentage s = None)
  /\ (JS.truthy initialValue = true ->
      Knob.value s = initialValue
      /\ (min < max -> initial_in_range min max initialValue ->
          in_unit (Knob.percentage s)))
  /\ (JS.truthy initialValue = false ->
      Knob.value s = Some 0
      /\ Knob.percentage s = Some 0
      /\ (value_derived s <-> min == 0)).
Proof.
  intros s. unfold s, value_derived. knob_red.
  split; [repeat split |]. split.
  - intros Ht. rewrite Ht.
    destruct initialValue as [v |]; [| discriminate].
    cbn [JS.toNum initial_in_range]. split; [reflexivity |].
    intros Hlt [H1 H2]. apply in_unit_some.
    + apply Qle_shift_div_l; lra.
    + apply Qle_shift_div_r; lra.
  - intros Hf. rewrite Hf.
    split; [reflexivity |]. split; [reflexivity |].
    split; intros H; lra.
Qed.

(** ** The DOM event handlers *)

(** X16.  What a read-only knob ignores.  With [readOnly] set in the
    configuration, a key press (whatever the key names), a pointer start and
    a pointer move leave the state unchanged and call no callback.  The
    interactive hook decides event by event: its answer to the event at
    hand, built from the modifier keys and the mouse position of that event,
    makes the handlers ignore the start or move when it has [readOnly], and
    otherwise the event reaches the controller with the mouse angle of the
    position; without a hook no event is held back.  With the hook of the
    README, which answers [readOnly] near the centre, a move is ignored
    exactly when the mouse radius of the event is below 20.  A pointer start
    with a mouse button other than the main one is ignored. *)
Theorem read_only_blocks_keys_and_pointer
    (inherited : String.string -> bool)
    (getMousePosition :
       Events.Element -> Events.PointerEvent -> Events.MousePosition)
    (config : Events.Config) (key : String.string)
    (elem : Events.Element) (e : Events.PointerEvent) (s : Knob.KnobState) :
  let position := getMousePosition elem e in
  let answer := Events.getInteractiveConfig config position e in
  let nearCentre := fun ev =>
    if JS.ltb (Events.h_mouseRadius ev) 20
    then Events.mkInteractiveHookResult (Some true) None
    else Events.mkInteractiveHookResult None None in
  (Events.readOnly config = true ->
   Events.handleKeyDown inherited config key s = Some (s, [])
   /\ Events.handleStart getMousePosition config elem e s = (s, [])
   /\ Events.handleMove getMousePosition config elem e s = (s, []))
  /\ ((forall hook,
         Events.interactiveHook config = Some hook ->
         answer
         = hook (Events.mkInteractiveHookEvent
                   (Events.ctrlKey e) (Events.altKey e) (Events.metaKey e)
                   (Events.shiftKey e) (Events.mouseX position)
                   (Events.mouseY position) (Events.mouseRadius position)
                   (Events.mouseAngle position)))
      /\ (Events.interactiveHook config = None ->
          Events.h_readOnly answer = None))
  /\ (Events.h_readOnly answer = Some true ->
      Events.handleStart getMousePosition config elem e s = (s, [])
      /\ Events.handleMove getMousePosition config elem e s = (s, []))
  /\ (Events.readOnly config = false ->
      Events.h_readOnly answer <> Some true ->
      Events.handleMove getMousePosition config elem e s
      = Knob.handleMove (Events.mouseAngle position) s
      /\ (Events.pointerIsMouse e = false \/ Events.button e = 0%Z ->
          Events.handleStart getMousePosition config elem e s
          = Knob.handleStart (Events.mouseAngle position) s))
  /\ (Events.readOnly config = false ->
      Events.interactiveHook config = Some nearCentre ->
      (Events.mouseRadius position < 20 ->
       Events.handleMove getMousePosition config elem e s = (s, []))
      /\ (20 <= Events.mouseRadius position ->
          Events.handleMove getMousePosition config elem e s
          = Knob.handleMove (Events.mouseAngle position) s))
  /\ (Events.pointerIsMouse e = true ->
      Events.button e <> 0%Z ->
      Events.handleStart getMousePosition config elem e s = (s, [])).
Proof.
  intros position answer nearCentre.
  assert (Hflag : forall b, b <> Some true -> Events.flag b = false).
  { intros [[|] |] H; first [reflexivity | contradiction H; reflexivity]. }
  assert (Hign : Events.h_readOnly answer = Some true ->
                 Events.handleStart getMousePosition config elem e s = (s, [])
                 /\ Events.handleMove getMousePosition config elem e s
                    = (s, [])).
  { intros Hro.
    unfold Events.handleStart, Events.handleMove.
    fold position. fold answer. rewrite Hro. cbn [Events.flag].
    split.
    - destruct (Events.pointerIsMouse e && _); [reflexivity |].
      destruct (Events.readOnly config); reflexivity.
    - destruct (Events.readOnly config); reflexivity. }
  assert (Hpass : Events.readOnly config = false ->
                  Events.h_readOnly answer <> Some true ->
                  Events.handleMove getMousePosition config elem e s
                  = Knob.handleMove (Events.mouseAngle position) s
                  /\ (Events.pointerIsMouse e = false
                      \/ Events.button e = 0%Z ->
                      Events.handleStart getMousePosition config elem e s
                      = Knob.handleStart (Events.mouseAngle position) s)).
  { intros Hr Hro.
    unfold Events.handleStart, Events.handleMove.
    fold position. fold answer. rewrite Hr, (Hflag _ Hro).
    split; [reflexivity |].
    intros [Hm | Hb].
    - rewrite Hm. reflexivity.
    - rewrite Hb, andb_false_r. reflexivity. }
  split; [| split; [| split; [| split; [| split]]]].
  - intros Hr. unfold Events.handleKeyDown, Events.handleStart,
      Events.handleMove. rewrite Hr.
    split; [| split].
    + destruct (Events.property inherited key Events.DIRECTIONS) as [v | |];
        [destruct (Qeq_bool v 0) | |]; reflexivity.
    + destruct (Events.pointerIsMouse e && _); reflexivity.
    + reflexivity.
  - split.
    + intros hook Hh. unfold answer, Events.getInteractiveConfig.
      rewrite Hh. reflexivity.
    + intros Hn. unfold answer, Events.getInteractiveConfig.
      rewrite Hn. reflexivity.
  - exact Hign.
  - exact Hpass.
  - intros Hr Hh.
    assert (Ha : answer
                 = nearCentre
                     (Events.mkInteractiveHookEvent
                        (Events.ctrlKey e) (Events.altKey e)
                        (Events.metaKey e) (Events.shiftKey e)
                        (Events.mouseX position) (Events.mouseY position)
                        (Events.mouseRadius position)
                        (Events.mouseAngle position))).
    { unfold answer, Events.getInteractiveConfig. rewrite Hh. reflexivity. }
    unfold nearCentre in Ha. cbn [Events.h_mouseRadius] in Ha.
    split.
    + intros Hlt. apply ltb_true in Hlt. rewrite Hlt in Ha.
      apply Hign. rewrite Ha. reflexivity.
    + intros Hge.
      assert (Hf : JS.ltb (Events.mouseRadius position) 20 = false)
        by (apply ltb_false; exact Hge).
      rewrite Hf in Ha.
      apply (Hpass Hr). rewrite Ha. discriminate.
  - intros Hm Hb. unfold Events.handleStart. rewrite Hm.
    apply Z.eqb_neq in Hb. rewrite Hb. reflexivity.
Qed.

(** X17.  The wheel handler does not read [readOnly]: its result is the
    same for both settings, and on a read-only knob with the mouse wheel
    enabled a wheel tick with a positive [deltaY] is a step of [+1], which
    changes the value and calls both change callbacks. *)
Theorem wheel_steps_a_read_only_knob
    (config : Events.Config) (deltaX deltaY v : Q) (s : Knob.KnobState) :
  Events.useMouseWheel config = true ->
  0 < deltaY ->
  Knob.value s = Some v ->
  Events.handleWheel config deltaX deltaY s
  = Events.handleWheel
      (Events.mkConfig true true (Events.interactiveHook config))
      deltaX deltaY s
  /\ Events.handleWheel
       (Events.mkConfig true true (Events.interactiveHook config))
       deltaX deltaY s
     = Knob.handleStep 1 s
  /\ snd (Events.handleWheel
            (Events.mkConfig true true (Events.interactiveHook config))
            deltaX deltaY s)
     = [Knob.onInteractiveChange
          (Utils.clamp (Knob.min s) (Knob.max s) (v + 1));
        Knob.onChange (Utils.clamp (Knob.min s) (Knob.max s) (v + 1))].
Proof.
  intros Hw Hd Hv.
  assert (E : JS.gtb deltaY 0 = true) by (apply ltb_true; exact Hd).
  unfold Events.handleWheel. rewrite Hw.
  cbn [negb Events.useMouseWheel]. rewrite E, orb_true_r.
  change (Qeq_bool 1 0) with false. cbv iota.
  split; [reflexivity |]. split; [reflexivity |].
  unfold Knob.handleStep. rewrite Hv. reflexivity.
Qed.

(** An instance of X17: a wheel tick on a read-only knob at the value
    10. *)
Lemma wheel_steps_a_read_only_knob_witness :
  Events.handleWheel (Events.mkConfig true true None) 0 1
    (Knob.createKnobState 0 100 false (Some 10) 0 360 100 None true)
  = Knob.handleStep 1
      (Knob.createKnobState 0 100 false (Some 10) 0 360 100 None true).
Proof.
  assert (Hd : 0 < 1) by lra.
  exact (proj1 (proj2 (wheel_steps_a_read_only_knob
           (Events.mkConfig true true None) 0 1 10
           (Knob.createKnobState 0 100 false (Some 10) 0 360 100 None true)
           eq_refl Hd eq_refl))).
Defined.

(** ** The arc path *)

Lemma clampDeg_identity (deg : Q) :
  -360 < deg -> deg < 360 -> Range.clampDeg deg = deg.
Proof.
  intros H1 H2. unfold Range.clampDeg, JS.geb, JS.leb.
  assert (E1 : Qle_bool 360 deg = false) by (apply leb_false; exact H2).
  assert (E2 : Qle_bool deg (-360) = false) by (apply leb_false; exact H1).
  rewrite E1, E2. reflexivity.
Qed.

(** X19.  [clampDeg] returns an angle strictly inside a full turn, and
    returns an angle that already is strictly inside a full turn
    unchanged. *)
Theorem clampDeg_stays_inside_full_turn (deg : Q) :
  (-360 < Range.clampDeg deg /\ Range.clampDeg deg < 360)
  /\ (-360 < deg /\ deg < 360 -> Range.clampDeg deg = deg).
Proof.
  unfold Range.clampDeg, JS.geb, JS.leb.
  destruct (Qle_bool 360 deg) eqn:E1;
    [apply Qle_bool_iff in E1 | apply leb_false in E1].
  - split; [split; lra | intros [H1 H2]; exfalso; lra].
  - destruct (Qle_bool deg (-360)) eqn:E2;
      [apply Qle_bool_iff in E2 | apply leb_false in E2].
    + split; [split; lra | intros [H1 H2]; exfalso; lra].
    + split; [split; lra | reflexivity].
Qed.

(** X20.  An arc between equal percentages has no span: its two outer
    points coincide, its two inner points coincide, and it is drawn as a
    small clockwise arc.  The trigonometric functions are only assumed to
    give equal results on equal numbers. *)
Theorem range_path_of_equal_percentages
    (PI : Q) (cos sin : Q -> Q)
    (p angleOffset angleRange arcWidth radius center : Q) :
  (forall a b, a == b -> cos a == cos b) ->
  (forall a b, a == b -> sin a == sin b) ->
  let p1 :=
    Range.pointOnCircle cos sin center radius
      (Range.degTorad PI (angleOffset - 90 + angleRange * p)) in
  let p4 :=
    Range.pointOnCircle cos sin center (radius - arcWidth)
      (Range.degTorad PI (angleOffset - 90 + angleRange * p)) in
  exists x2 y2 x3 y3 : Q,
    Range.calcPath PI cos sin p p angleOffset angleRange arcWidth radius center
    = [Range.M; Range.Num (Range.x p1); Range.Num (Range.y p1);
       Range.A; Range.Num radius; Range.Num radius; Range.Num 0;
         Range.Num 0; Range.Num 1; Range.Num x2; Range.Num y2;
       Range.L; Range.Num x3; Range.Num y3;
       Range.A; Range.Num (radius - arcWidth); Range.Num (radius - arcWidth);
         Range.Num 0; Range.Num 0; Range.Num (1 - 1);
         Range.Num (Range.x p4); Range.Num (Range.y p4);
       Range.L; Range.Num (Range.x p1); Range.Num (Range.y p1)]
    /\ x2 == Range.x p1 /\ y2 == Range.y p1
    /\ x3 == Range.x p4 /\ y3 == Range.y p4.
Proof.
  intros Hcos Hsin p1 p4.
  assert (Hz : angleRange * (p - p) == 0) by ring.
  assert (Hc : Range.clampDeg (angleRange * (p - p)) = angleRange * (p - p)).
  { apply clampDeg_identity; lra. }
  unfold Range.calcPath. rewrite Hc.
  assert (F1 : JS.ltb (JS.Math_abs (angleRange * (p - p))) 180 = true).
  { apply ltb_true. unfold JS.Math_abs. cmp_cases; lra. }
  assert (F2 : JS.geb (angleRange * (p - p)) 0 = true).
  { unfold JS.geb. apply Qle_bool_iff. lra. }
  rewrite F1, F2.
  assert (Ha : Range.degTorad PI
                 (angleOffset - 90 + angleRange * p + angleRange * (p - p))
               == Range.degTorad PI (angleOffset - 90 + angleRange * p)).
  { unfold Range.degTorad. rewrite Hz. field. }
  do 4 eexists. split; [reflexivity |].
  cbn [Range.pointOnCircle Range.x Range.y]. unfold p1, p4.
  cbn [Range.pointOnCircle Range.x Range.y].
  rewrite (Hcos _ _ Ha), (Hsin _ _ Ha).
  repeat split; reflexivity.
Qed.

(** An instance of X20, with the identity standing in for the
    trigonometric functions. *)
Lemma range_path_of_equal_percentages_witness :
  exists x2 y2 x3 y3 : Q,
    Range.calcPath 3 (fun q => q) (fun q => q) 0.25 0.25 0 360 5 40 50
    = [Range.M;
       Range.Num (Range.x (Range.pointOnCircle (fun q => q) (fun q => q) 50 40
                             (Range.degTorad 3 (0 - 90 + 360 * 0.25))));
       Range.Num (Range.y (Range.pointOnCircle (fun q => q) (fun q => q) 50 40
                             (Range.degTorad 3 (0 - 90 + 360 * 0.25))));
       Range.A; Range.Num 40; Range.Num 40; Range.Num 0;
         Range.Num 0; Range.Num 1; Range.Num x2; Range.Num y2;
       Range.L; Range.Num x3; Range.Num y3;
       Range.A; Range.Num (40 - 5); Range.Num (40 - 5);
         Range.Num 0; Range.Num 0; Range.Num (1 - 1);
         Range.Num (Range.x (Range.pointOnCircle (fun q => q) (fun q => q) 50
                               (40 - 5)
                               (Range.degTorad 3 (0 - 90 + 360 * 0.25))));
         Range.Num (Range.y (Range.pointOnCircle (fun q => q) (fun q => q) 50
                               (40 - 5)
                               (Range.degTorad 3 (0 - 90 + 360 * 0.25))));
       Range.L;
       Range.Num (Range.x (Range.pointOnCircle (fun q => q) (fun q => q) 50 40
                             (Range.degTorad 3 (0 - 90 + 360 * 0.25))));
       Range.Num (Range.y (Range.pointOnCircle (fun q => q) (fun q => q) 50 40
                             (Range.degTorad 3 (0 - 90 + 360 * 0.25))))]
    /\ x2 == Range.x (Range.pointOnCircle (fun q => q) (fun q => q) 50 40
                        (Range.degTorad 3 (0 - 90 + 360 * 0.25)))
    /\ y2 == Range.y (Range.pointOnCircle (fun q => q) (fun q => q) 50 40
                        (Range.degTorad 3 (0 - 90 + 360 * 0.25)))
    /\ x3 == Range.x (Range.pointOnCircle (fun q => q) (fun q => q) 50 (40 - 5)
                        (Range.degTorad 3 (0 - 90 + 360 * 0.25)))
    /\ y3 == Range.y (Range.pointOnCircle (fun q => q) (fun q => q) 50 (40 - 5)
                        (Range.degTorad 3 (0 - 90 + 360 * 0.25))).
Proof.
  exact (range_path_of_equal_percentages 3 (fun q => q) (fun q => q)
           0.25 0 360 5 40 50 (fun a b H => H) (fun a b H => H)).
Defined.

(** X21.  [Range.svelte] and [Spiral.svelte] apply the same rule to
    their two optional bounds, but not to the same current percentage: the
    range takes its [percentage] property and falls back to the percentage
    of the knob state, the spiral takes its [percentage] property alone.
    Both bounds given, they are used; only the start given, the range ends
    at the current percentage; only the end given, it starts there; none
    given, it runs from 0 to the current percentage.  So the two components
    resolve the same bounds when the property is given or the state has no
    percentage; with only a start given and no property, the range ends at
    the percentage of the state and the spiral renders nothing.  The range
    yields no path exactly when a bound is missing and neither the property
    nor the state has a percentage. *)
Theorem range_and_spiral_bound_resolution
    (PI : Q) (cos sin : Q -> Q)
    (percentageFrom percentageTo propPercentage contextPercentage : option Q)
    (angleOffset angleRange arcWidth size : Q)
    (radius radiusFrom radiusTo : option Q) :
  (forall percentage,
     SpiralProps.pfrom percentageFrom percentageTo percentage
     = Range.pfrom percentageFrom percentageTo percentage
     /\ SpiralProps.pto percentageTo percentage
        = Range.pto percentageFrom percentageTo percentage)
  /\ (propPercentage <> None \/ contextPercentage = None ->
      SpiralProps.pfrom percentageFrom percentageTo propPercentage
      = Range.pfrom percentageFrom percentageTo
          (Range.p propPercentage contextPercentage)
      /\ SpiralProps.pto percentageTo propPercentage
         = Range.pto percentageFrom percentageTo
             (Range.p propPercentage contextPercentage))
  /\ (forall f c,
        Range.pto (Some f) None (Range.p None (Some c)) = Some c
        /\ SpiralProps.pto None None = None
        /\ SpiralProps.renders radiusFrom radiusTo (Some f) None None = false)
  /\ (Range.d PI cos sin percentageFrom percentageTo propPercentage
        contextPercentage angleOffset angleRange arcWidth radius size = None
      <-> (propPercentage = None /\ contextPercentage = None)
          /\ (percentageFrom = None \/ percentageTo = None)).
Proof.
  split; [| split; [| split]].
  - intros percentage.
    destruct percentageFrom, percentageTo; split; reflexivity.
  - intros [H | H].
    + destruct propPercentage as [q |]; [| contradiction H; reflexivity].
      destruct percentageFrom, percentageTo; split; reflexivity.
    + rewrite H.
      destruct propPercentage, percentageFrom, percentageTo;
        split; reflexivity.
  - intros f c. split; [reflexivity |]. split; [reflexivity |].
    destruct radiusFrom, radiusTo; reflexivity.
  - unfold Range.d.
    destruct percentageFrom as [f |], percentageTo as [t |],
      propPercentage as [q |], contextPercentage as [c |];
      cbn [Range.p Range.pfrom Range.pto];
      (split;
       [intros H; first [discriminate H | split; [split; reflexivity | auto]]
       | intros [[H1 H2] [H3 | H3]]; first [discriminate | reflexivity]]).
Qed.

(** ** The spiral path *)

Lemma segments_zero (a b : Q) : a == b -> Spiral.segments a b = 0%Z.
Proof.
  intros H. unfold Spiral.segments, JS.Math_ceil.
  assert (E : b - a == 0) by lra.
  rewrite (Qceiling_comp _ _ E). reflexivity.
Qed.

(** X22.  The spiral does not depend on the order in which its two
    endpoints are given: swapping the two percentages together with their
    radii gives the same path. *)
Theorem spiral_path_is_symmetric
    (PI : Q) (cos sin : Q -> Q)
    (percentageFrom percentageTo angleOffset angleRange arcWidth
       radiusFrom radiusTo center : Q) :
  Spiral.calcPath PI cos sin (Some percentageFrom) (Some percentageTo)
    angleOffset angleRange arcWidth radiusFrom radiusTo center
  = Spiral.calcPath PI cos sin (Some percentageTo) (Some percentageFrom)
      angleOffset angleRange arcWidth radiusTo radiusFrom center.
Proof.
  unfold Spiral.calcPath, Spiral.ordered, JS.leb.
  destruct (Qle_bool percentageFrom percentageTo) eqn:E1;
    [apply Qle_bool_iff in E1 | apply leb_false in E1];
    destruct (Qle_bool percentageTo percentageFrom) eqn:E2;
    [apply Qle_bool_iff in E2 | apply leb_false in E2
    | apply Qle_bool_iff in E2 | apply leb_false in E2].
  - assert (E : percentageFrom == percentageTo) by lra.
    rewrite (segments_zero _ _ E).
    symmetry in E. rewrite (segments_zero _ _ E).
    reflexivity.
  - reflexivity.
  - reflexivity.
  - exfalso. lra.
Qed.

(** One iteration of the loop with a positive segment count: the pieces
    grow by finite tokens only, seven per arc and two per point. *)
Lemma body_step (PI : Q) (cos sin : Q -> Q) (nb i : Z)
    (center arcWidth outerRadiusMin outerRadiusMax startAngleRad
       endAngleRad : Q) (acc : Spiral.Pieces) :
  (0 < nb)%Z -> ~ PI == 0 ->
  exists arcOut arcIn pointOut pointIn : list Spiral.Token,
    (Forall finite_token arcOut /\ length arcOut = 7%nat)
    /\ (Forall finite_token arcIn /\ length arcIn = 7%nat)
    /\ (Forall finite_token pointOut /\ length pointOut = 2%nat)
    /\ (Forall finite_token pointIn /\ length pointIn = 2%nat)
    /\ Spiral.body PI cos sin nb center arcWidth outerRadiusMin outerRadiusMax
         startAngleRad endAngleRad acc i
       = Spiral.mkPieces
           (if (i =? 0)%Z then Spiral.forth acc else Spiral.forth acc ++ arcOut)
           (if (i =? 0)%Z then pointOut else Spiral.start acc)
           (if (i =? nb)%Z then Spiral.back acc else arcIn ++ Spiral.back acc)
           (if (i =? nb)%Z then pointIn else Spiral.link acc).
Proof.
  intros Hnb Hpi.
  unfold Spiral.body. cbv zeta.
  rewrite !(coef_finite i nb Hnb).
  cbn [Spiral.jmul Spiral.jadd Spiral.jsub Spiral.jneg Spiral.jdiv
       Spiral.pointOnCircle Spiral.Math_cos Spiral.Math_sin
       Spiral.x Spiral.y].
  rewrite (Qeq_bool_false PI 0 Hpi).
  cbn [Spiral.jmul Spiral.jadd Spiral.jsub Spiral.jneg].
  do 4 eexists.
  split; [| split; [| split; [| split]]].
  5: { destruct (i =? 0)%Z, (i =? nb)%Z;
       cbn [Spiral.forth Spiral.start Spiral.back Spiral.link]; reflexivity. }
  all: split; [repeat constructor | reflexivity].
Qed.

(** The pieces after the first [m] iterations of the loop over [n]
    segments. *)
Lemma loop_prefix (PI : Q) (cos sin : Q -> Q) (n : nat)
    (center arcWidth outerRadiusMin outerRadiusMax startAngleRad
       endAngleRad : Q) (m : nat) :
  (1 <= n)%nat -> ~ PI == 0 -> (m <= S n)%nat ->
  let acc :=
    fold_left
      (Spiral.body PI cos sin (Z.of_nat n) center arcWidth outerRadiusMin
         outerRadiusMax startAngleRad endAngleRad)
      (map Z.of_nat (seq 0 m)) (Spiral.mkPieces [] [] [] []) in
  (Forall finite_token (Spiral.forth acc)
   /\ Forall finite_token (Spiral.start acc)
   /\ Forall finite_token (Spiral.back acc)
   /\ Forall finite_token (Spiral.link acc))
  /\ length (Spiral.forth acc) = (7 * (m - 1))%nat
  /\ length (Spiral.start acc) = (if (m =? 0)%nat then 0 else 2)%nat
  /\ length (Spiral.back acc) = (7 * Nat.min m n)%nat
  /\ length (Spiral.link acc) = (if (m =? S n)%nat then 2 else 0)%nat.
Proof.
  intros Hn Hpi. induction m as [| m IH]; intros Hm acc.
  - unfold acc. cbn [seq map fold_left Spiral.forth Spiral.start Spiral.back
                     Spiral.link length Nat.eqb Nat.min Nat.sub Nat.mul].
    repeat split; try constructor; lia.
  - assert (Hm' : (m <= S n)%nat) by lia.
    specialize (IH Hm'). cbv zeta in IH.
    unfold acc. rewrite seq_S, map_app, fold_left_app.
    cbn [Nat.add map fold_left].
    set (prev := fold_left _ (map Z.of_nat (seq 0 m)) _) in *.
    destruct IH as ((F1 & F2 & F3 & F4) & L1 & L2 & L3 & L4).
    assert (Hnb : (0 < Z.of_nat n)%Z) by lia.
    destruct (body_step PI cos sin (Z.of_nat n) (Z.of_nat m) center arcWidth
                outerRadiusMin outerRadiusMax startAngleRad endAngleRad prev
                Hnb Hpi)
      as (ao & ai & po & pi & (Fao & Lao) & (Fai & Lai) & (Fpo & Lpo)
          & (Fpi & Lpi) & E).
    rewrite E. cbn [Spiral.forth Spiral.start Spiral.back Spiral.link].
    assert (E0 : (Z.of_nat m =? 0)%Z = (m =? 0)%nat).
    { destruct m; [reflexivity |].
      cbn [Nat.eqb]. apply Z.eqb_neq. lia. }
    assert (En : (Z.of_nat m =? Z.of_nat n)%Z = (m =? n)%nat).
    { destruct (Nat.eqb_spec m n) as [-> | Hne];
        [apply Z.eqb_refl | apply Z.eqb_neq; lia]. }
    rewrite E0, En. change (S m =? 0)%nat with false. cbv iota.
    revert L2 L4.
    destruct (Nat.eqb_spec m 0) as [M0 | M0];
      destruct (Nat.eqb_spec m n) as [Mn | Mn];
      destruct (Nat.eqb_spec m (S n)) as [Ms | Ms];
      destruct (Nat.eqb_spec (S m) (S n)) as [Ss | Ss];
      try lia; intros L2 L4;
      (split; [repeat split; try assumption;
               try (apply Forall_app; split; assumption) |]);
      rewrite ?length_app; repeat split; lia.
Qed.

(** X23.  With endpoints in increasing order and distinct, and [Math.PI]
    not zero, the spiral has at least four segments, every number of its
    path is finite, and the path has the five command letters, the two
    points and fourteen numbers per segment. *)
Theorem spiral_path_is_finite
    (PI : Q) (cos sin : Q -> Q)
    (percentageFrom percentageTo angleOffset angleRange arcWidth
       radiusFrom radiusTo center : Q) :
  ~ PI == 0 ->
  percentageFrom < percentageTo ->
  (4 <= Spiral.segments percentageFrom percentageTo)%Z
  /\ Forall finite_token
       (Spiral.calcPath PI cos sin (Some percentageFrom) (Some percentageTo)
          angleOffset angleRange arcWidth radiusFrom radiusTo center)
  /\ length
       (Spiral.calcPath PI cos sin (Some percentageFrom) (Some percentageTo)
          angleOffset angleRange arcWidth radiusFrom radiusTo center)
     = (9 + 14 * Z.to_nat (Spiral.segments percentageFrom percentageTo))%nat.
Proof.
  intros Hpi Hlt.
  pose proof (segments_at_least_four _ _ Hlt) as H4.
  split; [exact H4 |].
  unfold Spiral.calcPath, Spiral.ordered, JS.leb.
  assert (E : Qle_bool percentageFrom percentageTo = true)
    by (apply Qle_bool_iff; lra).
  rewrite E.
  set (nb := Spiral.segments percentageFrom percentageTo) in *.
  assert (Hi : Spiral.indices nb = map Z.of_nat (seq 0 (S (Z.to_nat nb)))).
  { unfold Spiral.indices.
    assert (En : (nb <? 0)%Z = false) by (apply Z.ltb_ge; lia).
    rewrite En. reflexivity. }
  rewrite Hi.
  remember (Z.to_nat nb) as n eqn:Hn'.
  assert (Hz : nb = Z.of_nat n) by lia.
  assert (Hn : (1 <= n)%nat) by lia.
  clearbody nb. subst nb.
  pose proof (loop_prefix PI cos sin n center arcWidth radiusFrom radiusTo
                (Spiral.degTorad PI
                   (angleOffset - 90 + angleRange * percentageFrom))
                (Spiral.degTorad PI
                   (angleOffset - 90 + angleRange * percentageFrom
                    + angleRange * (percentageTo - percentageFrom)))
                (S n) Hn Hpi (le_n _)) as H.
  cbv zeta in H.
  set (acc := fold_left _ _ _) in *.
  destruct H as ((F1 & F2 & F3 & F4) & L1 & L2 & L3 & L4).
  rewrite Nat.eqb_refl in L4. cbn [Nat.eqb] in L2.
  split.
  - repeat (apply Forall_app; split); try assumption;
      repeat (constructor; try exact I).
  - rewrite !length_app, L1, L2, L3, L4. cbn [length]. lia.
Qed.

(** An instance of X23: half a turn, with stand-ins for the native
    functions. *)
Lemma spiral_path_is_finite_witness :
  (4 <= Spiral.segments 0 0.5)%Z
  /\ Forall finite_token
       (Spiral.calcPath 3 (fun q => q) (fun q => q) (Some 0) (Some 0.5)
          0 360 5 40 30 50)
  /\ length
       (Spiral.calcPath 3 (fun q => q) (fun q => q) (Some 0) (Some 0.5)
          0 360 5 40 30 50)
     = (9 + 14 * Z.to_nat (Spiral.segments 0 0.5))%nat.
Proof.
  assert (H1 : ~ 3 == 0) by (intros E; vm_compute in E; discriminate).
  assert (H2 : 0 < 0.5) by lra.
  exact (spiral_path_is_finite 3 (fun q => q) (fun q => q) 0 0.5 0 360 5 40 30
           50 H1 H2).
Defined.

(** ** The scale *)

(** X24.  For a positive integer number of steps and a percentage in
    [[0, 1]], the active tick of the scale is one of the rendered ticks:
    its index lies between 0 and [length - 1]. *)
Theorem scale_active_tick_in_range (steps angleRange percentage : Q) (k : Z) :
  (1 <= k)%Z /\ steps == inject_Z k ->
  0 <= percentage /\ percentage <= 1 ->
  0 <= Scale.active (Scale.length steps angleRange) percentage
  /\ Scale.active (Scale.length steps angleRange) percentage
     <= Scale.length steps angleRange - 1.
Proof.
  intros [Hk Hs] [H0 H1].
  assert (Hkq : 1 <= inject_Z k).
  { change 1 with (inject_Z 1). rewrite <- Zle_Qle. exact Hk. }
  unfold Scale.active, Scale.length, JS.Math_round.
  destruct (Qeq_bool angleRange 360).
  - assert (Hm : steps + 0 - 1 == inject_Z (k - 1)).
    { unfold Z.sub. rewrite inject_Z_plus.
      change (inject_Z (- (1))) with (-1). lra. }
    assert (Hc : (steps + 0 - 1) * percentage + 0.5
                 == percentage * (steps + 0 - 1) + 0.5) by ring.
    rewrite (Qfloor_comp _ _ Hc).
    destruct (floor_index_range percentage (steps + 0 - 1) (k - 1) Hm
                ltac:(lia) H0 H1) as [F0 F1].
    rewrite Zle_Qle in F0, F1. change (inject_Z 0) with 0 in F0.
    split; [exact F0 | lra].
  - assert (Hm : steps + 1 - 1 == inject_Z k) by lra.
    assert (Hc : (steps + 1 - 1) * percentage + 0.5
                 == percentage * (steps + 1 - 1) + 0.5) by ring.
    rewrite (Qfloor_comp _ _ Hc).
    destruct (floor_index_range percentage (steps + 1 - 1) k Hm
                ltac:(lia) H0 H1) as [F0 F1].
    rewrite Zle_Qle in F0, F1. change (inject_Z 0) with 0 in F0.
    split; [exact F0 | lra].
Qed.

(** An instance of X24: ten steps on a full circle at 0.97. *)
Lemma scale_active_tick_in_range_witness :
  0 <= Scale.active (Scale.length 10 360) 0.97
  /\ Scale.active (Scale.length 10 360) 0.97 <= Scale.length 10 360 - 1.
Proof.
  assert (H1 : (1 <= 10)%Z /\ 10 == inject_Z 10)
    by (split; [lia | vm_compute; reflexivity]).
  assert (H2 : 0 <= 0.97 /\ 0.97 <= 1) by (split; lra).
  exact (scale_active_tick_in_range 10 360 0.97 10 H1 H2).
Defined.

(** X25.  On a partial circle ([angleRange] other than 360) with a
    positive integer number of steps [k], the active tick is the tick
    nearest to the pointer: a percentage within a quarter of a step of
    [j / k] activates tick [j].  The numbers are those an array of ticks can
    have: [k] and [j] are below [2 ^ 32], so that the product is far from
    the integers that binary64 no longer tells apart. *)
Theorem scale_active_tick_is_nearest
    (steps angleRange percentage : Q) (k j : Z) :
  ~ angleRange == 360 ->
  (1 <= k < 2 ^ 32)%Z /\ steps == inject_Z k ->
  (- 2 ^ 32 < j < 2 ^ 32)%Z ->
  inject_Z j - 0.25 <= steps * percentage
  /\ steps * percentage <= inject_Z j + 0.25 ->
  Scale.active (Scale.length steps angleRange) percentage = inject_Z j.
Proof.
  intros Hr [Hk Hs] _ [H1 H2].
  unfold Scale.active, Scale.length, JS.Math_round.
  rewrite (Qeq_bool_false _ _ Hr).
  f_equal. apply Qfloor_unique.
  - lra.
  - lra.
Qed.

(** An instance of X25: four steps over 270 degrees at 0.7. *)
Lemma scale_active_tick_is_nearest_witness :
  Scale.active (Scale.length 4 270) 0.7 = inject_Z 3.
Proof.
  assert (H1 : ~ 270 == 360) by (intros E; vm_compute in E; discriminate).
  assert (H2 : (1 <= 4 < 2 ^ 32)%Z /\ 4 == inject_Z 4)
    by (split; [lia | vm_compute; reflexivity]).
  assert (H3 : (- 2 ^ 32 < 3 < 2 ^ 32)%Z) by lia.
  assert (H4 : inject_Z 3 - 0.25 <= 4 * 0.7 /\ 4 * 0.7 <= inject_Z 3 + 0.25)
    by (split; vm_compute; discriminate).
  exact (scale_active_tick_is_nearest 4 270 0.7 4 3 H1 H2 H3 H4).
Defined.

(** ** The controlled value *)

(** X26.  Copying a controlled value into the state: afterwards the value
    of the state is the given one, copying it again changes nothing, and a
    null value changes nothing.  The copy writes only when the given value
    differs from the one held (or none is held); it then sets the
    percentage to [(value - min) / (max - min)] and leaves every other
    field, the activity and the start snapshot included, as it was. *)
Theorem syncValue_contract (min max v : Q) (s : Knob.KnobState) :
  (exists v',
     Knob.value (KnobComponent.syncValue min max (Some v) s) = Some v'
     /\ v' == v)
  /\ KnobComponent.syncValue min max (Some v)
       (KnobComponent.syncValue min max (Some v) s)
     = KnobComponent.syncValue min max (Some v) s
  /\ KnobComponent.syncValue min max None s = s
  /\ (forall current,
        Knob.value s = Some current -> v == current ->
        KnobComponent.syncValue min max (Some v) s = s)
  /\ (Knob.isActive (KnobComponent.syncValue min max (Some v) s)
      = Knob.isActive s
      /\ Knob.mouseAngle (KnobComponent.syncValue min max (Some v) s)
         = Knob.mouseAngle s
      /\ Knob.startValue (KnobComponent.syncValue min max (Some v) s)
         = Knob.startValue s
      /\ Knob.startPercentage (KnobComponent.syncValue min max (Some v) s)
         = Knob.startPercentage s).
Proof.
  assert (Hrefl : Qeq_bool v v = true) by (apply Qeq_bool_iff; reflexivity).
  unfold KnobComponent.syncValue.
  destruct (Knob.value s) as [current |] eqn:Ev.
  - destruct (Qeq_bool v current) eqn:E; cbn [negb].
    + pose proof E as E'. apply Qeq_bool_iff in E'.
      split; [| split; [| split; [| split]]].
      * exists current. split; [exact Ev | symmetry; exact E'].
      * rewrite Ev, E. reflexivity.
      * reflexivity.
      * intros c Hc _. reflexivity.
      * repeat split.
    + split; [| split; [| split; [| split]]].
      * exists v. split; reflexivity.
      * knob_red. rewrite Hrefl. reflexivity.
      * reflexivity.
      * intros c Hc Hvc. injection Hc as <-.
        apply Qeq_bool_iff in Hvc. congruence.
      * repeat split.
  - split; [| split; [| split; [| split]]].
    + exists v. split; reflexivity.
    + knob_red. rewrite Hrefl. reflexivity.
    + reflexivity.
    + intros c Hc. discriminate Hc.
    + repeat split.
Qed.
